(** * Fiscal Fácil 3.1 — front-end import pipeline

    Shallow embedding of the logic of the company-registration form
    ([CadastroEmpresa]), the invoice upload component ([UploadXML]) and the
    PDF generator ([pdfGenerator]), and the properties the specification
    states about them.

    JavaScript values are embedded as a small untyped value universe
    ([Js.JsVal]); handlers that mutate component state through [useState]
    setters are embedded as explicit state passing. *)

From Stdlib Require Import ZArith String Ascii List Bool Lia DecimalString.
Import ListNotations.
Local Open Scope list_scope.
Local Open Scope string_scope.
Set Warnings "-register-all".

(* ================================================================== *)
(** * JavaScript values *)
(* ================================================================== *)

Module Js.

(** Values that reach the components: everything a parsed JSON body can
    hold, plus [undefined].  Numbers are the integer-valued ones (what the
    registry and the audit service put in identifiers, counters and codes);
    objects keep their properties in insertion order, which is the order
    [JSON.stringify] prints them in. *)
Inductive JsVal : Type :=
| JUndefined
| JNull
| JBool (b : bool)
| JNum (n : Z)
| JStr (s : string)
| JArr (l : list JsVal)
| JObj (o : list (string * JsVal)).

(** The only exception the embedded code can raise by itself. *)
Inductive JsError : Type := TypeError.

(** Outcome of evaluating an expression that may throw. *)
Inductive Completion (A : Type) : Type :=
| Normal (a : A)
| Throw (e : JsError).
Arguments Normal {A} a.
Arguments Throw {A} e.

Definition bind {A B} (c : Completion A) (k : A -> Completion B) : Completion B :=
  match c with
  | Normal a => k a
  | Throw e => Throw e
  end.

(** [Array.prototype.map] with a callback that may throw: the first
    exception aborts the traversal. *)
Fixpoint mapM {A B} (f : A -> Completion B) (l : list A) : Completion (list B) :=
  match l with
  | [] => Normal []
  | x :: r =>
      bind (f x) (fun y => bind (mapM f r) (fun ys => Normal (y :: ys)))
  end.

(** ToBoolean. *)
Definition truthy (v : JsVal) : bool :=
  match v with
  | JUndefined | JNull => false
  | JBool b => b
  | JNum n => negb (n =? 0)%Z
  | JStr s => negb (s =? "")
  | JArr _ | JObj _ => true
  end.

(** The [typeof] operator. *)
Inductive JsType : Type := TyUndefined | TyObject | TyBoolean | TyNumber | TyString.

Definition typeof (v : JsVal) : JsType :=
  match v with
  | JUndefined => TyUndefined
  | JNull | JArr _ | JObj _ => TyObject
  | JBool _ => TyBoolean
  | JNum _ => TyNumber
  | JStr _ => TyString
  end.

(** [Array.isArray]. *)
Definition isArray (v : JsVal) : bool :=
  match v with JArr _ => true | _ => false end.

(** Own-property lookup in an object literal. *)
Fixpoint lookup (k : string) (o : list (string * JsVal)) : option JsVal :=
  match o with
  | [] => None
  | (k', v) :: r => if (k' =? k) then Some v else lookup k r
  end.

(** Property read [v.k], for the property names the components read
    ([response], [data], [detail], [msg], [loc], [message]): none of them is
    an index, [length] or a prototype member, so on anything but an object
    literal the read yields [undefined]; on [null] and [undefined] it throws. *)
Definition get (v : JsVal) (k : string) : Completion JsVal :=
  match v with
  | JUndefined | JNull => Throw TypeError
  | JObj o => Normal (match lookup k o with Some x => x | None => JUndefined end)
  | _ => Normal JUndefined
  end.

(** Optional chaining [v?.k]. *)
Definition getOpt (v : JsVal) (k : string) : JsVal :=
  match v with
  | JObj o => match lookup k o with Some x => x | None => JUndefined end
  | _ => JUndefined
  end.

(** [a || b] on values. *)
Definition or (a b : JsVal) : JsVal := if truthy a then a else b.

(** Number::toString for integer-valued numbers (in the range printed
    without an exponent). *)
Definition numberToString (n : Z) : string := NilZero.string_of_int (Z.to_int n).

(** ToString, as applied by template literals, [String(...)] and
    [Array.prototype.join], on the values it is defined on: an object that
    carries a member named [toString] of its own (which, coming from JSON,
    cannot be called) makes the conversion throw instead, see
    [toStringSeguro]. *)
Fixpoint toString (v : JsVal) : string :=
  match v with
  | JUndefined => "undefined"
  | JNull => "null"
  | JBool b => if b then "true" else "false"
  | JNum n => numberToString n
  | JStr s => s
  | JArr l =>
      String.concat ","
        (map (fun x => match x with
                       | JUndefined | JNull => ""
                       | _ => toString x
                       end) l)
  | JObj _ => "[object Object]"
  end.

(** The values ToString converts without throwing: no object in them, at
    any depth of arrays, has a member of its own named [toString]. *)
Fixpoint toStringSeguro (v : JsVal) : bool :=
  match v with
  | JObj o => match lookup "toString" o with Some _ => false | None => true end
  | JArr l => forallb toStringSeguro l
  | _ => true
  end.

(** [l.join(sep)]: [null] and [undefined] elements print as nothing. *)
Definition arrayJoin (sep : string) (l : list JsVal) : string :=
  String.concat sep
    (map (fun x => match x with
                   | JUndefined | JNull => ""
                   | _ => toString x
                   end) l).

(** Method call [v.join(sep)]: only arrays have the method. *)
Definition callJoin (v : JsVal) (sep : string) : Completion string :=
  match v with
  | JArr l => Normal (arrayJoin sep l)
  | _ => Throw TypeError
  end.

Definition dquote : ascii := ascii_of_nat 34.
Definition backslash : ascii := ascii_of_nat 92.

Definition hexDigit (n : nat) : ascii :=
  nth n (list_ascii_of_string "0123456789abcdef") "0"%char.

(** QuoteJSONString, one code unit at a time. *)
Definition escapeChar (c : ascii) : string :=
  let n := nat_of_ascii c in
  if (n =? 34)%nat then String backslash (String dquote "")
  else if (n =? 92)%nat then String backslash (String backslash "")
  else if (n =? 8)%nat then String backslash "b"
  else if (n =? 9)%nat then String backslash "t"
  else if (n =? 10)%nat then String backslash "n"
  else if (n =? 12)%nat then String backslash "f"
  else if (n =? 13)%nat then String backslash "r"
  else if (n <? 32)%nat then
    String backslash
      ("u00" ++ String (hexDigit (n / 16)) (String (hexDigit (n mod 16)) ""))
  else String c "".

Fixpoint escapeString (s : string) : string :=
  match s with
  | EmptyString => ""
  | String c r => escapeChar c ++ escapeString r
  end.

Definition quoteJSON (s : string) : string :=
  String dquote (escapeString s ++ String dquote "").

(** [JSON.stringify(v)] with no replacer and no indentation; [None] is the
    [undefined] it returns for [undefined].  Inside an array [undefined]
    prints as [null]; inside an object the property is left out. *)
Fixpoint stringify (v : JsVal) : option string :=
  match v with
  | JUndefined => None
  | JNull => Some "null"
  | JBool b => Some (if b then "true" else "false")
  | JNum n => Some (numberToString n)
  | JStr s => Some (quoteJSON s)
  | JArr l =>
      Some ("[" ++
            String.concat ","
              (map (fun x => match stringify x with
                             | Some s => s
                             | None => "null"
                             end) l)
            ++ "]")
  | JObj o =>
      Some ("{" ++
            String.concat ","
              (flat_map (fun kv => match kv with
                                   | (k, x) =>
                                       match stringify x with
                                       | Some s => [quoteJSON k ++ ":" ++ s]
                                       | None => []
                                       end
                                   end) o)
            ++ "}")
  end.

Definition jsonStringify (v : JsVal) : JsVal :=
  match stringify v with
  | Some s => JStr s
  | None => JUndefined
  end.

End Js.

Declare Scope js_scope.
Notation "x <- c ;; k" := (Js.bind c (fun x => k))
  (at level 61, c at next level, right associativity) : js_scope.
Local Open Scope js_scope.

(* ================================================================== *)
(** * CadastroEmpresa: error normalizer, CNPJ mask, CNAE auto-population *)
(* ================================================================== *)

Module CadastroEmpresa.
Import Js.

(** ** extrairMensagemErro *)

Definition mensagemDesconhecida : string :=
  "Erro desconhecido ao processar requisição.".

(** The callback given to [data.detail.map]. *)
Definition renderDetailEntry (e : JsVal) : Completion JsVal :=
  match typeof e with
  | TyString => Normal e
  | _ =>
      msg <- get e "msg" ;;
      if truthy msg then
        loc <- get e "loc" ;;
        prefix <- (if truthy loc
                   then (joined <- callJoin loc "." ;; Normal (joined ++ ": "))
                   else Normal "") ;;
        Normal (JStr (prefix ++ toString msg))
      else Normal (jsonStringify e)
  end.

(** The closing [if (typeof mensagemErro === 'object')] re-stringification. *)
Definition ultimaDefesa (mensagemErro : JsVal) : JsVal :=
  match typeof mensagemErro with
  | TyObject => jsonStringify mensagemErro
  | _ => mensagemErro
  end.

Definition extrairMensagemErro (error : JsVal) : Completion JsVal :=
  response <- get error "response" ;;
  mensagemErro <-
    (if truthy response then
       data <- get response "data" ;;
       match typeof data with
       | TyString => Normal data
       | _ =>
           if truthy (getOpt data "detail") then
             detail <- get data "detail" ;;
             match detail with
             | JArr l =>                     (* Array.isArray(data.detail) *)
                 rendered <- mapM renderDetailEntry l ;;
                 Normal (JStr (arrayJoin "; " rendered))
             | JStr _ => Normal detail       (* typeof data.detail === 'string' *)
             | _ => Normal (jsonStringify detail)
             end
           else Normal (jsonStringify data)
       end
     else
       message <- get error "message" ;;
       if truthy message then Normal message
       else Normal (JStr mensagemDesconhecida)) ;;
  Normal (ultimaDefesa mensagemErro).

(** What the specification calls a validation entry: an object with a
    non-empty string [msg] and a [loc] that is either absent or a list.
    [entryView e] reads such an entry as (location, message). *)
Definition entryView (e : JsVal) : option (option (list JsVal) * string) :=
  match e with
  | JObj o =>
      match lookup "msg" o with
      | Some (JStr m) =>
          if (m =? "") then None
          else match lookup "loc" o with
               | None => Some (None, m)
               | Some (JArr p) => Some (Some p, m)
               | Some _ => None
               end
      | _ => None
      end
  | _ => None
  end.

(** The rendering the specification gives for one validation entry. *)
Definition specEntry (v : option (list JsVal) * string) : string :=
  match v with
  | (Some p, m) => arrayJoin "." p ++ ": " ++ m
  | (None, m) => m
  end.

(** Entries of a [detail] list on which the callback raises nothing: not
    [null] or [undefined]; and, when [msg] is truthy, a [msg] that converts
    to text and a [loc] that is falsy or an array of values that convert to
    text. *)
Definition entradaSegura (e : JsVal) : bool :=
  match e with
  | JUndefined | JNull => false
  | JObj o =>
      match lookup "msg" o with
      | Some msg =>
          negb (truthy msg)
          || (toStringSeguro msg
              && match lookup "loc" o with
                 | Some loc =>
                     negb (truthy loc) || (isArray loc && toStringSeguro loc)
                 | None => true
                 end)
      | None => true
      end
  | _ => true
  end.

(** ** aplicarMascaraCNPJ / limparCNPJ *)

(** The regular-expression class [\d]. *)
Definition isDigit (c : ascii) : bool :=
  let n := nat_of_ascii c in ((48 <=? n) && (n <=? 57))%nat.

(** [s.replace(/\D/g, '')]. *)
Fixpoint removeNonDigits (s : string) : string :=
  match s with
  | EmptyString => ""
  | String c r => if isDigit c then String c (removeNonDigits r)
                  else removeNonDigits r
  end.

(** [\d{n}] at the head of [s]: the group and what follows it. *)
Fixpoint digitsExactly (n : nat) (s : string) : option (string * string) :=
  match n with
  | O => Some ("", s)
  | S n' =>
      match s with
      | String c r =>
          if isDigit c then
            match digitsExactly n' r with
            | Some (g, rest) => Some (String c g, rest)
            | None => None
            end
          else None
      | EmptyString => None
      end
  end.

(** [\d{0,k}] at the head of [s], greedy. *)
Fixpoint digitsUpTo (k : nat) (s : string) : string * string :=
  match k with
  | O => ("", s)
  | S k' =>
      match s with
      | String c r =>
          if isDigit c then
            let (g, rest) := digitsUpTo k' r in (String c g, rest)
          else ("", s)
      | EmptyString => ("", s)
      end
  end.

(** The pattern [(\d{n1})...(\d{nm})(\d{0,k})] tried at the head of [s]:
    the captured groups and the text after the match. *)
Fixpoint matchGroups (fixed : list nat) (k : nat) (s : string)
  : option (list string * string) :=
  match fixed with
  | [] => let (g, rest) := digitsUpTo k s in Some ([g], rest)
  | n :: fixed' =>
      match digitsExactly n s with
      | Some (g, s') =>
          match matchGroups fixed' k s' with
          | Some (gs, rest) => Some (g :: gs, rest)
          | None => None
          end
      | None => None
      end
  end.

(** The replacement template [$1 sep1 $2 sep2 ... $m]. *)
Fixpoint substitute (seps : list string) (groups : list string) : string :=
  match groups with
  | [] => ""
  | g :: gs =>
      match seps with
      | sep :: seps' => g ++ sep ++ substitute seps' gs
      | [] => g ++ substitute [] gs
      end
  end.

(** [s.replace(re, template)] for a pattern without the [g] flag: the
    leftmost match is replaced, the text before and after it is kept. *)
Fixpoint replaceFirst (fixed : list nat) (k : nat) (seps : list string)
  (s : string) : string :=
  match matchGroups fixed k s with
  | Some (gs, rest) => substitute seps gs ++ rest
  | None =>
      match s with
      | EmptyString => ""
      | String c r => String c (replaceFirst fixed k seps r)
      end
  end.

Definition aplicarMascaraCNPJ (valor : string) : string :=
  let numeros := removeNonDigits valor in
  if (String.length numeros <=? 2)%nat then numeros
  else if (String.length numeros <=? 5)%nat then
    replaceFirst [2%nat] 3 ["."] numeros
  else if (String.length numeros <=? 8)%nat then
    replaceFirst [2%nat; 3%nat] 3 ["."; "."] numeros
  else if (String.length numeros <=? 12)%nat then
    replaceFirst [2%nat; 3%nat; 3%nat] 4 ["."; "."; "/"] numeros
  else
    replaceFirst [2%nat; 3%nat; 3%nat; 4%nat] 2 ["."; "."; "/"; "-"] numeros.

Definition limparCNPJ (valor : string) : string := removeNonDigits valor.

(** Strings made of ASCII digits only. *)
Fixpoint allDigits (s : string) : bool :=
  match s with
  | EmptyString => true
  | String c r => isDigit c && allDigits r
  end.

(** ** CNAE auto-population in consultarCNPJ *)

(** The registry snapshot, as far as the auto-population reads it:
    [cnae_principal] is whatever the body holds under that name
    ([JUndefined] when absent); [cnaes_secundarios] is a JSON array, or
    [None] when the member is absent or [null]. *)
Module Receita.
Record Dados : Type :=
  { cnae_principal : JsVal;
    cnaes_secundarios : option (list JsVal) }.
End Receita.

(** One element of [formData.cnaes_permitidos]. *)
Record CnaePermitido : Type :=
  { cnae_codigo : JsVal;
    descricao : JsVal;
    codigo_servico_municipal : JsVal }.

(** The object literal pushed for one registry entry; reading a member of
    a [null] entry throws. *)
Definition cnaeAutoPopulado (cnae : JsVal) : Completion CnaePermitido :=
  codigo <- get cnae "codigo" ;;
  descricaoReceita <- get cnae "descricao" ;;
  Normal {| cnae_codigo := if truthy codigo then JStr (toString codigo)
                           else JStr "";
            descricao := or descricaoReceita (JStr "");
            codigo_servico_municipal := JStr "" |}.

(** The list [cnaesAutoPopulados] built from [response.data]. *)
Definition cnaesAutoPopulados (dados : Receita.Dados)
  : Completion (list CnaePermitido) :=
  principal <-
    (if truthy (Receita.cnae_principal dados) then
       p <- cnaeAutoPopulado (Receita.cnae_principal dados) ;; Normal [p]
     else Normal []) ;;
  secundarios <-
    (match Receita.cnaes_secundarios dados with
     | Some l =>
         if (0 <? List.length l)%nat then mapM cnaeAutoPopulado (firstn 5 l)
         else Normal []
     | None => Normal []
     end) ;;
  Normal (principal ++ secundarios)%list.

(** An activity entry as the registry sends it: an object. *)
Definition ehObjeto (v : JsVal) : bool :=
  match v with JObj _ => true | _ => false end.

(** The form entry the specification describes for one activity: the code
    as text, the description, an empty municipal service code. *)
Definition entradaDe (cnae : JsVal) : CnaePermitido :=
  {| cnae_codigo :=
       if truthy (getOpt cnae "codigo")
       then JStr (toString (getOpt cnae "codigo"))
       else JStr "";
     descricao := or (getOpt cnae "descricao") (JStr "");
     codigo_servico_municipal := JStr "" |}.

End CadastroEmpresa.


(* ================================================================== *)
(** * UploadXML: file selection and submission handlers *)
(* ================================================================== *)

Module UploadXML.
Import Js.

(** A selected file: its name and its bytes. *)
Record File : Type := { name : string; conteudo : string }.

(** [String.prototype.endsWith]. *)
Definition endsWith (s suffix : string) : bool :=
  let n := String.length s in
  let m := String.length suffix in
  if (m <=? n)%nat then (substring (n - m) m s =? suffix) else false.

(** One [axios.post(endpoint, formData, ...)]: the multipart fields in the
    order they were appended. *)
Record Request : Type :=
  { endpoint : string;
    formData : list (string * File) }.

Record AxiosResponse : Type := { data : JsVal }.

(** How the awaited call settles: it resolves with a response, or rejects
    with the value the [catch] block receives. *)
Inductive Settled : Type :=
| Resolved (response : AxiosResponse)
| Rejected (err : JsVal).

(** The component's [useState] cells. *)
Record State : Type :=
  { files : list File;
    loading : bool;
    progresso : option (nat * nat);   (* { atual, total } *)
    resultado : JsVal;
    error : JsVal }.

Definition initialState : State :=
  {| files := []; loading := false; progresso := None;
     resultado := JNull; error := JStr "" |}.

Definition setFiles (v : list File) (st : State) : State :=
  {| files := v; loading := loading st; progresso := progresso st;
     resultado := resultado st; error := error st |}.
Definition setLoading (v : bool) (st : State) : State :=
  {| files := files st; loading := v; progresso := progresso st;
     resultado := resultado st; error := error st |}.
Definition setProgresso (v : option (nat * nat)) (st : State) : State :=
  {| files := files st; loading := loading st; progresso := v;
     resultado := resultado st; error := error st |}.
Definition setResultado (v : JsVal) (st : State) : State :=
  {| files := files st; loading := loading st; progresso := progresso st;
     resultado := v; error := error st |}.
Definition setError (v : JsVal) (st : State) : State :=
  {| files := files st; loading := loading st; progresso := progresso st;
     resultado := resultado st; error := v |}.

(** The effect that runs when [empresaId] changes. *)
Definition trocarEmpresa (st : State) : State :=
  setProgresso None (setError (JStr "") (setResultado JNull (setFiles [] st))).

Definition handleFileChange (selectedFiles : list File) (st : State) : State :=
  let xmlFiles := filter (fun f => endsWith (name f) ".xml") selectedFiles in
  if (List.length xmlFiles =? 0)%nat then
    setFiles [] (setError (JStr "Por favor, selecione apenas arquivos XML válidos") st)
  else if (100 <? List.length xmlFiles)%nat then
    setFiles [] (setError (JStr "Máximo de 100 arquivos por upload") st)
  else
    setResultado JNull (setError (JStr "") (setFiles xmlFiles st)).

(** What one run of [handleUpload] leaves behind: the new state, the
    requests it sent, whether it called [onUploadSuccess], and whether the
    promise it returns rejected (an exception escaped the [catch] block). *)
Record Outcome : Type :=
  { state : State;
    requests : list Request;
    notified : bool;
    rejected : bool }.

(** The single-file aggregate built around [response.data]. *)
Definition resultadoUnico (nota : JsVal) : JsVal :=
  JObj [("total_arquivos", JNum 1); ("sucesso", JNum 1);
        ("falhas", JNum 0); ("nota", nota)].

(** [errorMsg.includes(...)]: strings and arrays have the method. *)
Definition temIncludes (v : JsVal) : bool :=
  match v with JStr _ | JArr _ => true | _ => false end.

Section Handlers.

(** The build-time base URL, the two props, and the audit service seen
    from the component. *)
Variable API_URL : string.
Variable empresaId : string.
Variable onUploadSuccess : bool.        (* was the callback prop given? *)
Variable post : Request -> Settled.

(** The [finally] block. *)
Definition finalizar (st : State) : State :=
  setProgresso None (setLoading false st).

(** The request [handleUpload] builds from the selected files: the batch
    endpoint with every file under [files], or, for a single file, the
    older endpoint with the file moved under [file]. *)
Definition montarRequest (st : State) : Request :=
  let formData0 := map (fun f => ("files", f)) (files st) in
  if (1 <? List.length (files st))%nat then
    {| endpoint := API_URL ++ "/api/notas/importar-lote/" ++ empresaId;
       formData := formData0 |}
  else
    {| endpoint := API_URL ++ "/api/notas/importar/" ++ empresaId;
       formData :=
         filter (fun kv => negb (fst kv =? "files")) formData0
         ++ match files st with
            | f :: _ => [("file", f)]       (* files[0] *)
            | [] => []
            end |}.

(** [handleUpload], with the awaited call answered by [post].  The reset
    of the file input element and the console output have no part in the
    state and are left out. *)
Definition handleUpload (st : State) : Outcome :=
  if (List.length (files st) =? 0)%nat then
    {| state := setError (JStr "Selecione pelo menos um arquivo") st;
       requests := []; notified := false; rejected := false |}
  else
    let st1 :=
      setProgresso (Some (0%nat, List.length (files st)))
        (setResultado JNull (setError (JStr "") (setLoading true st))) in
    let req := montarRequest st in
    match post req with
    | Resolved response =>
        let st2 :=
          setFiles []
            (setResultado (if (1 <? List.length (files st))%nat
                           then data response
                           else resultadoUnico (data response)) st1) in
        {| state := finalizar st2; requests := [req];
           notified := onUploadSuccess; rejected := false |}
    | Rejected err =>
        match get err "response" with
        | Throw _ =>
            {| state := finalizar st1; requests := [req];
               notified := false; rejected := true |}
        | Normal response =>
            let errorMsg :=
              or (getOpt (getOpt response "data") "detail")
                 (JStr "Erro ao processar arquivos") in
            {| state := finalizar (setError errorMsg st1); requests := [req];
               notified := false; rejected := negb (temIncludes errorMsg) |}
        end
    end.

(** One submission cycle as the operator performs it: pick files in the
    input, then press the button. *)
Definition submit (selectedFiles : list File) (st : State) : Outcome :=
  handleUpload (handleFileChange selectedFiles st).

End Handlers.

End UploadXML.

(* ================================================================== *)
(** * pdfGenerator: the value-breakdown table *)
(* ================================================================== *)

Module PdfGenerator.

(** Numbers of the invoice payload: the finite ones as exact decimals
    [mantissa / 10^escala] (1234.5 is [Finito 12345 1]), the negative zero,
    the two infinities (a JSON number too large, or the text [Infinity]
    read by [parseFloat]) and [NaN] (what [parseFloat] gives for a text that
    is no number). *)
Inductive Numero : Type :=
| NaN
| Infinito (negativo : bool)
| MenosZero
| Finito (mantissa : Z) (escala : nat).


(** A member of [notaData] as the table reads it: absent or [null], a
    number, or a text. *)
Inductive Valor : Type :=
| Ausente
| Num (n : Numero)
| Str (s : string).

(** ToBoolean. *)
Definition truthyValor (v : Valor) : bool :=
  match v with
  | Ausente => false
  | Num NaN => false
  | Num (Infinito _) => true
  | Num MenosZero => false
  | Num (Finito m _) => negb (m =? 0)%Z
  | Str s => negb (s =? "")
  end.

(** [a || b]. *)
Definition ou (a b : Valor) : Valor := if truthyValor a then a else b.










Section Plataforma.

(** The platform functions the renderer calls, taken as given: the
    currency formatter built by [Intl.NumberFormat], [parseFloat], and
    Number::toString on non-integers. *)
Variable intl : Numero -> string.
Variable parseFloat : string -> Numero.
Variable numeroParaTexto : Numero -> string.






End Plataforma.



End PdfGenerator.


(* ================================================================== *)
(** * CadastroEmpresa: the form handlers *)
(* ================================================================== *)

Module CadastroForm.
Import Js CadastroEmpresa.

(** The registry body as the component reads it: the three members copied
    into the registration request, and the activities. *)
Module Corpo.
Record DadosReceita : Type :=
  { cnpj : JsVal;
    razao_social : JsVal;
    nome_fantasia : JsVal;
    atividades : Receita.Dados }.
End Corpo.

(** [formData]; the rate is a number with decimals. *)
Record FormData : Type :=
  { regime_tributario : string;
    aliquota_imposto : PdfGenerator.Numero;
    cnaes_permitidos : list CnaePermitido }.

(** The component's [useState] cells. *)
Record State : Type :=
  { step : nat;
    cnpj : string;
    dadosReceita : option Corpo.DadosReceita;
    loading : bool;
    error : JsVal;
    formData : FormData }.

Definition initialState : State :=
  {| step := 1; cnpj := ""; dadosReceita := None; loading := false;
     error := JStr "";
     formData := {| regime_tributario := "Simples Nacional";
                    aliquota_imposto := PdfGenerator.Finito 6 0;
                    cnaes_permitidos := [] |} |}.

Definition setStep (v : nat) (st : State) : State :=
  {| step := v; cnpj := cnpj st; dadosReceita := dadosReceita st;
     loading := loading st; error := error st; formData := formData st |}.
Definition setCnpj (v : string) (st : State) : State :=
  {| step := step st; cnpj := v; dadosReceita := dadosReceita st;
     loading := loading st; error := error st; formData := formData st |}.
Definition setDadosReceita (v : option Corpo.DadosReceita) (st : State) : State :=
  {| step := step st; cnpj := cnpj st; dadosReceita := v;
     loading := loading st; error := error st; formData := formData st |}.
Definition setLoading (v : bool) (st : State) : State :=
  {| step := step st; cnpj := cnpj st; dadosReceita := dadosReceita st;
     loading := v; error := error st; formData := formData st |}.
Definition setError (v : JsVal) (st : State) : State :=
  {| step := step st; cnpj := cnpj st; dadosReceita := dadosReceita st;
     loading := loading st; error := v; formData := formData st |}.
Definition setFormData (v : FormData) (st : State) : State :=
  {| step := step st; cnpj := cnpj st; dadosReceita := dadosReceita st;
     loading := loading st; error := error st; formData := v |}.

(** [{ ...formData, cnaes_permitidos: l }]. *)
Definition comCnaes (l : list CnaePermitido) (fd : FormData) : FormData :=
  {| regime_tributario := regime_tributario fd;
     aliquota_imposto := aliquota_imposto fd;
     cnaes_permitidos := l |}.

Definition handleCnpjChange (valorDigitado : string) (st : State) : State :=
  setCnpj (aplicarMascaraCNPJ valorDigitado) st.

(** ** The list of activity entries *)

Definition cnaeEmBranco : CnaePermitido :=
  {| cnae_codigo := JStr ""; descricao := JStr "";
     codigo_servico_municipal := JStr "" |}.

Definition adicionarCNAE (st : State) : State :=
  setFormData
    (comCnaes (cnaes_permitidos (formData st) ++ [cnaeEmBranco])%list (formData st))
    st.

(** [l.filter((x, i) => p(x, i))], the index counted from [i]. *)
Fixpoint filterIndexed {A} (p : A -> nat -> bool) (i : nat) (l : list A) : list A :=
  match l with
  | [] => []
  | x :: r =>
      if p x i then x :: filterIndexed p (S i) r
      else filterIndexed p (S i) r
  end.

Definition removerCNAE (index : nat) (st : State) : State :=
  let novosCAEs :=
    filterIndexed (fun _ i => negb (i =? index)%nat) 0
      (cnaes_permitidos (formData st)) in
  setFormData (comCnaes novosCAEs (formData st)) st.

(** The three property names the inputs pass as [campo]. *)
Inductive Campo : Type := CampoCodigo | CampoServico | CampoDescricao.

(** [cnae[campo] = valor]. *)
Definition atribuir (campo : Campo) (valor : string) (c : CnaePermitido)
  : CnaePermitido :=
  match campo with
  | CampoCodigo =>
      {| cnae_codigo := JStr valor; descricao := descricao c;
         codigo_servico_municipal := codigo_servico_municipal c |}
  | CampoServico =>
      {| cnae_codigo := cnae_codigo c; descricao := descricao c;
         codigo_servico_municipal := JStr valor |}
  | CampoDescricao =>
      {| cnae_codigo := cnae_codigo c; descricao := JStr valor;
         codigo_servico_municipal := codigo_servico_municipal c |}
  end.

(** [l[index][campo] = valor] on a copy of the list: [None] when
    [l[index]] is [undefined]. *)
Fixpoint atribuirEm (index : nat) (campo : Campo) (valor : string)
  (l : list CnaePermitido) : option (list CnaePermitido) :=
  match l, index with
  | [], _ => None
  | c :: r, O => Some (atribuir campo valor c :: r)
  | c :: r, S i =>
      match atribuirEm i campo valor r with
      | Some r' => Some (c :: r')
      | None => None
      end
  end.

(** [atualizarCNAE]: writing a member of [undefined] throws, and then no
    setter runs. *)
Definition atualizarCNAE (index : nat) (campo : Campo) (valor : string)
  (st : State) : Completion State :=
  match atribuirEm index campo valor (cnaes_permitidos (formData st)) with
  | Some novosCAEs => Normal (setFormData (comCnaes novosCAEs (formData st)) st)
  | None => Throw TypeError
  end.

(** ** The two requests *)

(** How the registry lookup settles. *)
Inductive Consulta : Type :=
| Respondida (dados : Corpo.DadosReceita)
| Recusada (err : JsVal).

(** The body of the registration request. *)
Record Cadastro : Type :=
  { envio_cnpj : JsVal;
    envio_razao_social : JsVal;
    envio_nome_fantasia : JsVal;
    envio_regime_tributario : string;
    envio_aliquota_imposto : PdfGenerator.Numero;
    envio_data_abertura : JsVal;
    envio_cnaes_permitidos : list CnaePermitido }.

(** How the registration request settles; its response is not read. *)
Inductive Envio : Type :=
| Aceito
| Recusado (err : JsVal).

(** What a handler leaves behind: the new state, the lookups and the
    registrations it sent, whether it called [onEmpresaCadastrada], and
    whether its promise rejected (the normalizer threw inside [catch]). *)
Record Outcome : Type :=
  { state : State;
    consultas : list string;
    cadastros : list Cadastro;
    notified : bool;
    rejected : bool }.

(** [formData.aliquota_imposto || 6.0]. *)
Definition aliquotaOuPadrao (n : PdfGenerator.Numero) : PdfGenerator.Numero :=
  match n with
  | PdfGenerator.NaN | PdfGenerator.MenosZero => PdfGenerator.Finito 6 0
  | PdfGenerator.Infinito _ => n
  | PdfGenerator.Finito m e =>
      if (m =? 0)%Z then PdfGenerator.Finito 6 0 else n
  end.

(** The object built for each entry of the registration request. *)
Definition cnaeParaEnviar (c : CnaePermitido) : CnaePermitido :=
  {| cnae_codigo := JStr (toString (or (cnae_codigo c) (JStr "")));
     descricao := descricao c;
     codigo_servico_municipal := or (codigo_servico_municipal c) (JStr "") |}.

Section Handlers.

(** The build-time base URL, the two services seen from the component, and
    the text the engine puts in the [message] of a TypeError. *)
Variable API_URL : string.
Variable get : string -> Consulta.
Variable post : Cadastro -> Envio.
Variable textoTypeError : string.

(** The value a [catch] block receives for an exception of the code. *)
Definition valorDoErro (e : JsError) : JsVal :=
  match e with
  | TypeError => JObj [("message", JStr textoTypeError)]
  end.

(** The [catch] block followed by the [finally] block; [cs] and [ps] are
    the requests sent before the exception. *)
Definition tratarErro (err : JsVal) (st : State)
  (cs : list string) (ps : list Cadastro) : Outcome :=
  match extrairMensagemErro err with
  | Normal mensagemErro =>
      {| state := setLoading false (setError mensagemErro st);
         consultas := cs; cadastros := ps; notified := false; rejected := false |}
  | Throw _ =>
      {| state := setLoading false st;
         consultas := cs; cadastros := ps; notified := false; rejected := true |}
  end.

Definition consultarCNPJ (st : State) : Outcome :=
  let st0 := setLoading true (setError (JStr "") st) in
  let cnpjLimpo := limparCNPJ (cnpj st) in
  if negb (String.length cnpjLimpo =? 14)%nat then
    {| state := setLoading false
                  (setError (JStr "CNPJ inválido. Digite 14 números.") st0);
       consultas := []; cadastros := []; notified := false; rejected := false |}
  else
    let url := API_URL ++ "/api/empresas/consulta/" ++ cnpjLimpo in
    match get url with
    | Respondida dados =>
        let st1 := setDadosReceita (Some dados) st0 in
        match cnaesAutoPopulados (Corpo.atividades dados) with
        | Normal cnaes =>
            {| state := setLoading false
                          (setStep 2 (setFormData (comCnaes cnaes (formData st)) st1));
               consultas := [url]; cadastros := [];
               notified := false; rejected := false |}
        | Throw e => tratarErro (valorDoErro e) st1 [url] []
        end
    | Recusada err => tratarErro err st0 [url] []
    end.

Definition cadastrarEmpresa (st : State) : Outcome :=
  let st0 := setLoading true (setError (JStr "") st) in
  match dadosReceita st with
  | None => tratarErro (valorDoErro TypeError) st0 [] []
  | Some dados =>
      let dadosParaEnviar :=
        {| envio_cnpj := Corpo.cnpj dados;
           envio_razao_social := Corpo.razao_social dados;
           envio_nome_fantasia := Corpo.nome_fantasia dados;
           envio_regime_tributario := regime_tributario (formData st);
           envio_aliquota_imposto := aliquotaOuPadrao (aliquota_imposto (formData st));
           envio_data_abertura := JNull;
           envio_cnaes_permitidos :=
             map cnaeParaEnviar (cnaes_permitidos (formData st)) |} in
      match post dadosParaEnviar with
      | Aceito =>
          {| state := setLoading false st0;
             consultas := []; cadastros := [dadosParaEnviar];
             notified := true; rejected := false |}
      | Recusado err => tratarErro err st0 [] [dadosParaEnviar]
      end
  end.

End Handlers.

(** Entries whose code and municipal service code are texts. *)
Definition camposDeTexto (c : CnaePermitido) : bool :=
  match cnae_codigo c, codigo_servico_municipal c with
  | JStr _, JStr _ => true
  | _, _ => false
  end.

End CadastroForm.

(* ================================================================== *)
(** * pdfGenerator: the name of the saved file *)
(* ================================================================== *)

Module PdfArquivo.
Import Js PdfGenerator.

Section Plataforma.

(** Number::toString, a platform function. *)
Variable numeroParaTexto : Numero -> string.

(** ToString inside the template literal. *)
Definition texto (v : Valor) : string :=
  match v with
  | Ausente => "undefined"
  | Num n => numeroParaTexto n
  | Str s => s
  end.

(** [notaData.data_emissao?.replace(/[^0-9]/g, '')]: nothing is called on
    an absent date; a text loses everything but its digits; a number has no
    [replace] to call. *)
Definition somenteDigitos (data_emissao : Valor) : Completion Valor :=
  match data_emissao with
  | Ausente => Normal Ausente
  | Str s => Normal (Str (CadastroEmpresa.removeNonDigits s))
  | Num _ => Throw TypeError
  end.

(** The [fileName] given to [doc.save]. *)
Definition nomeArquivo (numero_nota data_emissao : Valor) : Completion string :=
  digitos <- somenteDigitos data_emissao ;;
  Normal ("NFSe_" ++ texto (ou numero_nota (Str "SEM_NUMERO"))
          ++ "_" ++ texto (ou digitos (Str "sem_data")) ++ ".pdf").

End Plataforma.

End PdfArquivo.

(* ================================================================== *)
(** * Dashboard: which company is selected *)
(* ================================================================== *)

Module Dashboard.
Import Js.

(** The cells [carregarEmpresas] and [handleSelecionarEmpresa] write, and
    the entry [empresaSelecionadaId] of [localStorage] ([None] when the key
    is not there). *)
Record State : Type :=
  { empresas : list JsVal;
    empresaSelecionada : JsVal;
    loading : bool;
    empresaSelecionadaId : option string }.

Definition initialState (salvo : option string) : State :=
  {| empresas := []; empresaSelecionada := JNull; loading := true;
     empresaSelecionadaId := salvo |}.

Definition setEmpresas (v : list JsVal) (st : State) : State :=
  {| empresas := v; empresaSelecionada := empresaSelecionada st;
     loading := loading st; empresaSelecionadaId := empresaSelecionadaId st |}.
Definition setEmpresaSelecionada (v : JsVal) (st : State) : State :=
  {| empresas := empresas st; empresaSelecionada := v;
     loading := loading st; empresaSelecionadaId := empresaSelecionadaId st |}.
Definition setLoading (v : bool) (st : State) : State :=
  {| empresas := empresas st; empresaSelecionada := empresaSelecionada st;
     loading := v; empresaSelecionadaId := empresaSelecionadaId st |}.
Definition setItem (v : string) (st : State) : State :=
  {| empresas := empresas st; empresaSelecionada := empresaSelecionada st;
     loading := loading st; empresaSelecionadaId := Some v |}.

(** [e.id === salvo], the right-hand side being a text. *)
Definition idIgual (salvo : string) (e : JsVal) : Completion bool :=
  id <- get e "id" ;;
  Normal (match id with JStr s => (s =? salvo) | _ => false end).

(** [Array.prototype.find] with a callback that may throw; [JUndefined]
    when nothing is found. *)
Fixpoint findM (p : JsVal -> Completion bool) (l : list JsVal) : Completion JsVal :=
  match l with
  | [] => Normal JUndefined
  | e :: r => b <- p e ;; if b then Normal e else findM p r
  end.

(** How the list request settles. *)
Inductive Lista : Type :=
| Recebida (data : list JsVal)
| Falhou.

(** [carregarEmpresas], with the awaited call answered by [resposta] (a
    JSON array when it succeeds); an exception in the [try] block is logged
    and nothing more. *)
Definition carregarEmpresas (resposta : Lista) (st : State) : State :=
  match resposta with
  | Falhou => setLoading false st
  | Recebida data =>
      let st1 := setEmpresas data st in
      let salvoValido :=
        match empresaSelecionadaId st with
        | Some s => negb (s =? "")
        | None => false
        end in
      if salvoValido && (0 <? List.length data)%nat then
        match empresaSelecionadaId st with
        | Some s =>
            match findM (idIgual s) data with
            | Normal empresaRestaurada =>
                if truthy empresaRestaurada
                then setLoading false (setEmpresaSelecionada empresaRestaurada st1)
                else setLoading false
                       (setEmpresaSelecionada (nth 0 data JUndefined) st1)
            | Throw _ => setLoading false st1
            end
        | None => setLoading false st1
        end
      else if (0 <? List.length data)%nat && negb (truthy (empresaSelecionada st)) then
        setLoading false (setEmpresaSelecionada (nth 0 data JUndefined) st1)
      else setLoading false st1
  end.

(** [handleSelecionarEmpresa]: the id is stored as text.  Reading the id
    of [null] throws out of the handler, after the selection was set. *)
Definition handleSelecionarEmpresa (empresa : JsVal) (st : State) : State :=
  let st1 := setEmpresaSelecionada empresa st in
  match get empresa "id" with
  | Normal id => setItem (toString id) st1
  | Throw _ => st1
  end.

End Dashboard.

(* ================================================================== *)
(** * Properties *)
(* ================================================================== *)

Import Js.

(** ** Strings *)

Lemma append_nil_r (s : string) : s ++ "" = s.
Proof. induction s as [|c s IH]; simpl; [reflexivity | now rewrite IH]. Qed.

Lemma append_assoc (a b c : string) : (a ++ b) ++ c = a ++ (b ++ c).
Proof. induction a as [|x a IH]; simpl; [reflexivity | now rewrite IH]. Qed.

Lemma length_append (a b : string) :
  String.length (a ++ b) = (String.length a + String.length b)%nat.
Proof. induction a as [|x a IH]; simpl; [reflexivity | now rewrite IH]. Qed.

Section MaskLemmas.
Import CadastroEmpresa.

Lemma removeNonDigits_app (a b : string) :
  removeNonDigits (a ++ b) = removeNonDigits a ++ removeNonDigits b.
Proof.
  induction a as [|c a IH]; simpl; [reflexivity|].
  destruct (isDigit c); simpl; now rewrite IH.
Qed.

Lemma removeNonDigits_id (s : string) :
  allDigits s = true -> removeNonDigits s = s.
Proof.
  induction s as [|c s IH]; simpl; [reflexivity|].
  intros H. apply andb_true_iff in H as [Hc Hs].
  rewrite Hc. now rewrite IH.
Qed.

Lemma allDigits_removeNonDigits (s : string) :
  allDigits (removeNonDigits s) = true.
Proof.
  induction s as [|c s IH]; simpl; [reflexivity|].
  destruct (isDigit c) eqn:Hc; simpl; [now rewrite Hc|assumption].
Qed.

Lemma allDigits_app (a b : string) :
  allDigits (a ++ b) = allDigits a && allDigits b.
Proof.
  induction a as [|c a IH]; simpl; [reflexivity|].
  now rewrite IH, andb_assoc.
Qed.

(** On a run of digits [\d{n}] takes the first [n] of them. *)
Lemma digitsExactly_digits (n : nat) : forall s,
  allDigits s = true -> (n <= String.length s)%nat ->
  exists g rest,
    digitsExactly n s = Some (g, rest) /\ s = g ++ rest
    /\ String.length g = n.
Proof.
  induction n as [|n IH]; intros s Hs Hn; simpl.
  - exists "", s. repeat split.
  - destruct s as [|c s]; simpl in *; [lia|].
    apply andb_true_iff in Hs as [Hc Hs]. rewrite Hc.
    destruct (IH s Hs) as (g & rest & -> & -> & Hg); [lia|].
    exists (String c g), rest. simpl. repeat split. now rewrite Hg.
Qed.

(** [\d{0,k}] never fails and loses nothing. *)
Lemma digitsUpTo_app (k : nat) : forall s,
  fst (digitsUpTo k s) ++ snd (digitsUpTo k s) = s.
Proof.
  induction k as [|k IH]; intros s; simpl; [reflexivity|].
  destruct s as [|c s]; simpl; [reflexivity|].
  destruct (isDigit c); simpl; [|reflexivity].
  specialize (IH s). destruct (digitsUpTo k s) as [g rest]. simpl in *.
  now rewrite IH.
Qed.

Lemma digitsUpTo_length (k : nat) : forall s,
  allDigits s = true ->
  String.length (fst (digitsUpTo k s)) = Nat.min k (String.length s).
Proof.
  induction k as [|k IH]; intros s Hs; simpl; [reflexivity|].
  destruct s as [|c s]; simpl in *; [reflexivity|].
  apply andb_true_iff in Hs as [Hc Hs]. rewrite Hc.
  specialize (IH s Hs). destruct (digitsUpTo k s) as [g rest]. simpl in *.
  now rewrite IH.
Qed.


Lemma matchGroups_digits (fixed : list nat) : forall k s,
  allDigits s = true -> (list_sum fixed <= String.length s)%nat ->
  exists gs rest,
    matchGroups fixed k s = Some (gs, rest)
    /\ fold_right append rest gs = s.
Proof.
  induction fixed as [|n fixed IH]; intros k s Hs Hlen; simpl in *.
  - pose proof (digitsUpTo_app k s) as Happ.
    destruct (digitsUpTo k s) as [g rest]. simpl in Happ.
    exists [g], rest. now split.
  - destruct (digitsExactly_digits n s Hs) as (g & s' & -> & -> & Hg); [lia|].
    rewrite allDigits_app in Hs. apply andb_true_iff in Hs as [_ Hs'].
    rewrite length_append in Hlen.
    destruct (IH k s' Hs') as (gs & rest & -> & Hfold); [lia|].
    exists (g :: gs), rest. simpl. now rewrite Hfold.
Qed.

Lemma replaceFirst_unfold fixed k seps s :
  replaceFirst fixed k seps s =
  match matchGroups fixed k s with
  | Some (gs, rest) => substitute seps gs ++ rest
  | None =>
      match s with
      | EmptyString => ""
      | String c r => String c (replaceFirst fixed k seps r)
      end
  end.
Proof. destruct s; reflexivity. Qed.

(** Separators without digits vanish when the mask is removed. *)
Lemma removeNonDigits_substitute (gs : list string) : forall seps rest,
  Forall (fun sep => removeNonDigits sep = "") seps ->
  removeNonDigits (substitute seps gs ++ rest) =
  removeNonDigits (fold_right append rest gs).
Proof.
  induction gs as [|g gs IH]; intros seps rest Hseps; simpl; [reflexivity|].
  destruct seps as [|sep seps].
  - rewrite append_assoc.
    rewrite (removeNonDigits_app g (substitute [] gs ++ rest)).
    rewrite (removeNonDigits_app g (fold_right append rest gs)).
    now rewrite (IH [] rest).
  - inversion Hseps as [|? ? Hsep Hseps']; subst.
    rewrite !append_assoc.
    rewrite (removeNonDigits_app g (sep ++ substitute seps gs ++ rest)).
    rewrite (removeNonDigits_app sep (substitute seps gs ++ rest)).
    rewrite (removeNonDigits_app g (fold_right append rest gs)).
    rewrite Hsep. simpl. now rewrite (IH seps rest).
Qed.

(** Replacing the leading groups of a run of digits by their punctuated
    form adds punctuation only. *)
Lemma removeNonDigits_replaceFirst fixed k seps s :
  allDigits s = true -> (list_sum fixed <= String.length s)%nat ->
  Forall (fun sep => removeNonDigits sep = "") seps ->
  removeNonDigits (replaceFirst fixed k seps s) = s.
Proof.
  intros Hs Hlen Hseps. rewrite replaceFirst_unfold.
  destruct (matchGroups_digits fixed k s Hs Hlen) as (gs & rest & -> & Hfold).
  rewrite removeNonDigits_substitute by assumption.
  rewrite Hfold. now apply removeNonDigits_id.
Qed.

(** Unmasking a masked value gives the digits of the value, whatever
    their number. *)
Lemma limparCNPJ_aplicarMascaraCNPJ (valor : string) :
  limparCNPJ (aplicarMascaraCNPJ valor) = limparCNPJ valor.
Proof.
  unfold limparCNPJ, aplicarMascaraCNPJ.
  pose proof (allDigits_removeNonDigits valor) as Hd.
  set (numeros := removeNonDigits valor) in *.
  destruct (String.length numeros <=? 2)%nat eqn:H2;
    [now apply removeNonDigits_id|].
  apply Nat.leb_gt in H2.
  destruct (String.length numeros <=? 5)%nat eqn:H5;
    [apply removeNonDigits_replaceFirst; simpl; auto; lia|].
  apply Nat.leb_gt in H5.
  destruct (String.length numeros <=? 8)%nat eqn:H8;
    [apply removeNonDigits_replaceFirst; simpl; auto; lia|].
  apply Nat.leb_gt in H8.
  destruct (String.length numeros <=? 12)%nat eqn:H12;
    [apply removeNonDigits_replaceFirst; simpl; auto; lia|].
  apply Nat.leb_gt in H12.
  apply removeNonDigits_replaceFirst; simpl; auto; lia.
Qed.

(** With more than twelve digits the mask punctuates the first twelve and
    keeps every digit after them. *)
Lemma aplicarMascaraCNPJ_long (valor : string) :
  (12 < String.length (limparCNPJ valor))%nat ->
  exists a b c d r,
    limparCNPJ valor = a ++ b ++ c ++ d ++ r
    /\ String.length a = 2%nat /\ String.length b = 3%nat
    /\ String.length c = 3%nat /\ String.length d = 4%nat
    /\ aplicarMascaraCNPJ valor = a ++ "." ++ b ++ "." ++ c ++ "/" ++ d ++ "-" ++ r.
Proof.
  unfold limparCNPJ, aplicarMascaraCNPJ. intros Hlen.
  pose proof (allDigits_removeNonDigits valor) as Hd.
  set (numeros := removeNonDigits valor) in *.
  repeat (match goal with
          | |- context [(?x <=? ?y)%nat] =>
              destruct (Nat.leb_spec x y); [lia|]
          end).
  destruct (digitsExactly_digits 2 numeros Hd) as (a & s1 & Ea & Hs & La); [lia|].
  rewrite Hs, allDigits_app in Hd. apply andb_true_iff in Hd as [_ Hd1].
  rewrite Hs, length_append in Hlen.
  destruct (digitsExactly_digits 3 s1 Hd1) as (b & s2 & Eb & Hs1 & Lb); [lia|].
  rewrite Hs1, allDigits_app in Hd1. apply andb_true_iff in Hd1 as [_ Hd2].
  rewrite Hs1, length_append in Hlen.
  destruct (digitsExactly_digits 3 s2 Hd2) as (c & s3 & Ec & Hs2 & Lc); [lia|].
  rewrite Hs2, allDigits_app in Hd2. apply andb_true_iff in Hd2 as [_ Hd3].
  rewrite Hs2, length_append in Hlen.
  destruct (digitsExactly_digits 4 s3 Hd3) as (d & s4 & Ed & Hs3 & Ld); [lia|].
  exists a, b, c, d, s4. repeat split; try assumption.
  - now rewrite Hs, Hs1, Hs2, Hs3.
  - rewrite replaceFirst_unfold.
    cbn [matchGroups]. rewrite Ea, Eb, Ec, Ed.
    pose proof (digitsUpTo_app 2 s4) as Happ.
    destruct (digitsUpTo 2 s4) as [e rest]. simpl in Happ.
    cbn [substitute]. rewrite append_nil_r, !append_assoc. cbn [append].
    now rewrite Happ.
Qed.

End MaskLemmas.

(** ** Identifier formatter *)

Import CadastroEmpresa.

(** C5 — mask/unmask round trip: for every string [d] of ASCII digits of
    length at most 14, removing the mask from the masked form gives back
    [d] exactly. *)
Theorem C5_limpar_aplicar_roundtrip (d : string) :
  allDigits d = true -> (String.length d <= 14)%nat ->
  limparCNPJ (aplicarMascaraCNPJ d) = d.
Proof.
  intros Hd _. rewrite limparCNPJ_aplicarMascaraCNPJ.
  now apply removeNonDigits_id.
Qed.

Lemma C5_roundtrip_witness :
  allDigits "12345678000195" = true
  /\ (String.length "12345678000195" <= 14)%nat
  /\ limparCNPJ (aplicarMascaraCNPJ "12345678000195") = "12345678000195".
Proof.
  split; [reflexivity|]. split; [simpl; lia|].
  apply (C5_limpar_aplicar_roundtrip "12345678000195"); [reflexivity | simpl; lia].
Defined.

(** The five punctuation stages of the mask, one value per stage. *)
Example aplicarMascaraCNPJ_stages :
  map aplicarMascaraCNPJ ["12"; "12345"; "12345678"; "123456789012"; "12345678000195"]
  = ["12"; "12.345"; "12.345.678"; "12.345.678/9012"; "12.345.678/0001-95"].
Proof. reflexivity. Qed.

(** C6, as stated, fails: with fifteen digits the mask keeps the fifteenth
    after the last group, and unmasking gives fifteen digits, not fourteen. *)
Lemma C6_excess_digits_kept :
  aplicarMascaraCNPJ "123456789012345" = "12.345.678/9012-345"
  /\ String.length (limparCNPJ (aplicarMascaraCNPJ "123456789012345")) <> 14%nat.
Proof. split; [reflexivity | simpl; lia]. Qed.

(** C6, amended — for every input with more than 14 digits the mask
    punctuates the leading groups of 2, 3, 3 and 4 digits and keeps all the
    remaining digits (more than two) after the dash: nothing is truncated,
    and unmasking gives back every digit of the input, more than 14. *)
Theorem C6_mask_keeps_excess_digits (valor : string) :
  (14 < String.length (limparCNPJ valor))%nat ->
  (exists a b c d r,
      limparCNPJ valor = a ++ b ++ c ++ d ++ r
      /\ String.length a = 2%nat /\ String.length b = 3%nat
      /\ String.length c = 3%nat /\ String.length d = 4%nat
      /\ (2 < String.length r)%nat
      /\ aplicarMascaraCNPJ valor = a ++ "." ++ b ++ "." ++ c ++ "/" ++ d ++ "-" ++ r)
  /\ limparCNPJ (aplicarMascaraCNPJ valor) = limparCNPJ valor
  /\ (14 < String.length (limparCNPJ (aplicarMascaraCNPJ valor)))%nat.
Proof.
  intros Hlen. split; [|split].
  - destruct (aplicarMascaraCNPJ_long valor) as (a & b & c & d & r & E & La & Lb & Lc & Ld & M);
      [lia|].
    exists a, b, c, d, r. repeat split; try assumption.
    rewrite E, !length_append in Hlen. lia.
  - apply limparCNPJ_aplicarMascaraCNPJ.
  - now rewrite limparCNPJ_aplicarMascaraCNPJ.
Qed.

Lemma C6_keeps_excess_witness :
  (14 < String.length (limparCNPJ "12.345.678/9012-3456"))%nat
  /\ limparCNPJ (aplicarMascaraCNPJ "12.345.678/9012-3456") = "1234567890123456".
Proof.
  split; [simpl; lia|].
  destruct (C6_mask_keeps_excess_digits "12.345.678/9012-3456") as (_ & H & _);
    [simpl; lia | exact H].
Defined.

(** ** Registry auto-population *)

Lemma get_getOpt (v : JsVal) (k : string) :
  truthy v = true -> get v k = Normal (getOpt v k).
Proof. destruct v; simpl; try discriminate; reflexivity. Qed.

Lemma cnaeAutoPopulado_truthy (cnae : JsVal) :
  truthy cnae = true -> cnaeAutoPopulado cnae = Normal (entradaDe cnae).
Proof.
  intros H. unfold cnaeAutoPopulado. rewrite !get_getOpt by assumption.
  reflexivity.
Qed.

Lemma mapM_cnaeAutoPopulado (l : list JsVal) :
  forallb ehObjeto l = true ->
  mapM cnaeAutoPopulado l = Normal (map entradaDe l).
Proof.
  induction l as [|c l IH]; simpl; intros H; [reflexivity|].
  apply andb_true_iff in H as [Hc Hl].
  rewrite cnaeAutoPopulado_truthy by (destruct c; try discriminate; reflexivity).
  simpl. now rewrite IH.
Qed.

Lemma forallb_firstn {A} (f : A -> bool) (n : nat) (l : list A) :
  forallb f l = true -> forallb f (firstn n l) = true.
Proof.
  revert l. induction n as [|n IH]; intros [|x l]; simpl; auto.
  intros H. apply andb_true_iff in H as [Hx Hl]. now rewrite Hx, IH.
Qed.

(** C7 — with a primary activity present and [k] secondary activities the
    auto-population yields exactly [1 + min k 5] entries: the primary first,
    then the first five secondaries in order; every code is a string (the
    text of the registry's code, number or string) and every municipal
    service code is the empty string. *)
Theorem C7_cnaes_auto_populados
  (principal : JsVal) (sec : option (list JsVal)) :
  let secundarios := match sec with Some l => l | None => [] end in
  truthy principal = true ->
  forallb ehObjeto secundarios = true ->
  exists out,
    cnaesAutoPopulados {| Receita.cnae_principal := principal;
                          Receita.cnaes_secundarios := sec |} = Normal out
    /\ List.length out = (1 + Nat.min (List.length secundarios) 5)%nat
    /\ out = map entradaDe (principal :: firstn 5 secundarios)
    /\ Forall (fun e => typeof (cnae_codigo e) = TyString
                        /\ codigo_servico_municipal e = JStr "") out.
Proof.
  intros secundarios Hp Hs.
  exists (map entradaDe (principal :: firstn 5 secundarios)).
  split; [|split; [|split]].
  - unfold cnaesAutoPopulados. cbn [Receita.cnae_principal Receita.cnaes_secundarios].
    rewrite Hp, (cnaeAutoPopulado_truthy principal Hp). cbn [bind].
    destruct sec as [l|]; [|reflexivity].
    cbn [secundarios] in *.
    destruct l as [|c l]; [reflexivity|].
    cbn [List.length Nat.ltb Nat.leb].
    rewrite mapM_cnaeAutoPopulado by now apply forallb_firstn.
    reflexivity.
  - rewrite length_map. cbn [List.length]. rewrite length_firstn. lia.
  - reflexivity.
  - apply Forall_forall. intros e He. apply in_map_iff in He as (c & <- & _).
    unfold entradaDe. cbn [cnae_codigo codigo_servico_municipal].
    destruct (truthy (getOpt c "codigo")); now split.
Qed.

(** The specification's example: a numeric primary code and eight
    secondaries give six entries, the codes as text. *)
Lemma C7_eight_secondaries_witness :
  let cnae n := JObj [("codigo", JNum n); ("descricao", JStr "Atividade")] in
  exists out,
    cnaesAutoPopulados
      {| Receita.cnae_principal := cnae 6201500%Z;
         Receita.cnaes_secundarios :=
           Some (map cnae [6202300; 6203100; 6204000; 6209100;
                           6311900; 6319400; 8599603; 8599604]%Z) |}
    = Normal out
    /\ map cnae_codigo out
       = map JStr ["6201500"; "6202300"; "6203100"; "6204000"; "6209100"; "6311900"]
    /\ map codigo_servico_municipal out = map JStr [""; ""; ""; ""; ""; ""].
Proof.
  intros cnae.
  destruct (C7_cnaes_auto_populados (cnae 6201500%Z)
              (Some (map cnae [6202300; 6203100; 6204000; 6209100;
                               6311900; 6319400; 8599603; 8599604]%Z)))
    as (out & Hrun & _ & Hout & _); [reflexivity | reflexivity |].
  exists out. split; [exact Hrun|]. rewrite Hout. split; reflexivity.
Defined.

(** A [null] among the first five secondaries aborts the auto-population
    with a TypeError. *)
Example cnaesAutoPopulados_null_entry :
  cnaesAutoPopulados
    {| Receita.cnae_principal := JObj [("codigo", JNum 6201500)];
       Receita.cnaes_secundarios := Some [JNull] |}
  = Throw TypeError.
Proof. reflexivity. Qed.

(** ** Error normalizer *)

Lemma stringify_defined (v : JsVal) :
  v <> JUndefined -> exists s, stringify v = Some s.
Proof. destruct v; intros H; try (eexists; reflexivity). now elim H. Qed.

Lemma jsonStringify_string (v : JsVal) :
  v <> JUndefined -> exists s, jsonStringify v = JStr s.
Proof.
  intros H. destruct (stringify_defined v H) as [s Hs].
  exists s. unfold jsonStringify. now rewrite Hs.
Qed.

Lemma arrayJoin_strings (sep : string) (ss : list string) :
  arrayJoin sep (map JStr ss) = String.concat sep ss.
Proof.
  unfold arrayJoin. rewrite map_map. simpl. now rewrite map_id.
Qed.

(** On a validation entry the callback produces the rendering the
    specification gives. *)
Lemma renderDetailEntry_view (e : JsVal) v :
  entryView e = Some v -> renderDetailEntry e = Normal (JStr (specEntry v)).
Proof.
  destruct e as [| | | | |l|o]; simpl; try discriminate.
  unfold renderDetailEntry. simpl.
  destruct (lookup "msg" o) as [[| | | |m| |]|] eqn:Hmsg; try discriminate.
  destruct (m =? "") eqn:Hm; [discriminate|]. simpl. rewrite Hm. simpl.
  destruct (lookup "loc" o) as [[| | | | |p|]|] eqn:Hloc; try discriminate;
    intros [= <-]; simpl; [|reflexivity].
  now rewrite append_assoc.
Qed.

Lemma mapM_renderDetailEntry_views (l : list JsVal) : forall views,
  map entryView l = map Some views ->
  mapM renderDetailEntry l = Normal (map (fun v => JStr (specEntry v)) views).
Proof.
  induction l as [|e l IH]; intros [|v views] H; simpl in *; try discriminate.
  - reflexivity.
  - injection H as He Hl.
    rewrite (renderDetailEntry_view e v He). simpl.
    now rewrite (IH views Hl).
Qed.

(** C3, as stated, fails: an entry whose message is the empty string is not
    rendered as location, colon, message, it is serialised whole. *)
Lemma C3_empty_message_entry_serialised :
  let entry := JObj [("loc", JArr [JStr "body"]); ("msg", JStr "")] in
  let error := JObj [("response", JObj [("data", JObj [("detail", JArr [entry])])])] in
  extrairMensagemErro error = Normal (jsonStringify entry)
  /\ extrairMensagemErro error <> Normal (JStr "body: ").
Proof. split; [reflexivity | discriminate]. Qed.

(** C3, amended — when the response body carries a [detail] list whose
    entries each have a non-empty message (and a location that is a list
    when present), the normalizer returns the entries joined with "; ", each
    one as the location joined with dots, a colon and a space, then the
    message, without the prefix when the location is absent. *)
Theorem C3_detail_list_joined (error response : JsVal) o l views :
  get error "response" = Normal response ->
  truthy response = true ->
  get response "data" = Normal (JObj o) ->
  lookup "detail" o = Some (JArr l) ->
  map entryView l = map Some views ->
  extrairMensagemErro error
  = Normal (JStr (String.concat "; " (map specEntry views))).
Proof.
  intros Hresp Htr Hdata Hdet Hviews.
  unfold extrairMensagemErro. rewrite Hresp. simpl. rewrite Htr, Hdata. simpl.
  rewrite Hdet. simpl.
  rewrite (mapM_renderDetailEntry_views l views Hviews). simpl.
  rewrite <- (map_map specEntry JStr), arrayJoin_strings. reflexivity.
Qed.

Lemma C3_detail_list_witness :
  extrairMensagemErro
    (JObj [("response",
            JObj [("data",
                   JObj [("detail",
                          JArr [JObj [("loc", JArr [JStr "body"; JStr "cnpj"]);
                                      ("msg", JStr "field required")]])])])])
  = Normal (JStr "body.cnpj: field required").
Proof.
  apply (C3_detail_list_joined _
           (JObj [("data",
                   JObj [("detail",
                          JArr [JObj [("loc", JArr [JStr "body"; JStr "cnpj"]);
                                      ("msg", JStr "field required")]])])])
           [("detail",
             JArr [JObj [("loc", JArr [JStr "body"; JStr "cnpj"]);
                         ("msg", JStr "field required")]])]
           [JObj [("loc", JArr [JStr "body"; JStr "cnpj"]);
                  ("msg", JStr "field required")]]
           [(Some [JStr "body"; JStr "cnpj"], "field required")]);
    reflexivity.
Defined.

(** C4 — the normalizer is meant to return a string on every failure value,
    and does not: a [null] entry in a [detail] list makes the callback read
    [e.msg] on [null] and raise a TypeError, and a response without a body
    makes [JSON.stringify] return [undefined], which the closing check (only
    [typeof ... === 'object']) lets through. *)
Theorem C4_not_always_a_string :
  extrairMensagemErro
    (JObj [("response", JObj [("data", JObj [("detail", JArr [JNull])])])])
  = Throw TypeError
  /\ extrairMensagemErro (JObj [("response", JObj [("status", JNum 502)])])
     = Normal JUndefined.
Proof. split; reflexivity. Qed.

Lemma renderDetailEntry_safe (e : JsVal) :
  entradaSegura e = true -> exists s, renderDetailEntry e = Normal (JStr s).
Proof.
  destruct e as [| |b|n|s|l|o]; simpl; try discriminate;
    try (intros _; eexists; reflexivity).
  unfold renderDetailEntry. simpl.
  destruct (lookup "msg" o) as [msg|] eqn:Hmsg;
    [|intros _; eexists; reflexivity].
  destruct (truthy msg) eqn:Hm; simpl;
    [|intros _; eexists; reflexivity].
  intros H. apply andb_true_iff in H as [_ H].
  destruct (lookup "loc" o) as [loc|] eqn:Hloc; simpl;
    [|eexists; reflexivity].
  destruct (truthy loc) eqn:Hl; simpl; [|eexists; reflexivity].
  simpl in H. apply andb_true_iff in H as [Harr _].
  destruct loc; try discriminate. eexists. reflexivity.
Qed.

Lemma mapM_renderDetailEntry_safe (l : list JsVal) :
  forallb entradaSegura l = true ->
  exists ss, mapM renderDetailEntry l = Normal (map JStr ss).
Proof.
  induction l as [|e l IH]; simpl; intros H.
  - now exists [].
  - apply andb_true_iff in H as [He Hl].
    destruct (renderDetailEntry_safe e He) as [s ->].
    destruct (IH Hl) as [ss ->].
    now exists (s :: ss).
Qed.

(** What does hold in place of C4: when there is a response with a body
    (anything but [undefined]) and every entry of a [detail] list is safe
    for the callback (not [null], and with a message and a location that
    convert to text), the result is a string. *)
Lemma extrairMensagemErro_string_of_body (error response data : JsVal) :
  get error "response" = Normal response ->
  truthy response = true ->
  get response "data" = Normal data ->
  data <> JUndefined ->
  (forall l, getOpt data "detail" = JArr l -> forallb entradaSegura l = true) ->
  exists s, extrairMensagemErro error = Normal (JStr s).
Proof.
  intros Hresp Htr Hdata Hdef Hsafe.
  unfold extrairMensagemErro. rewrite Hresp. simpl. rewrite Htr, Hdata. simpl.
  destruct (jsonStringify_string data Hdef) as [sd Hsd].
  destruct data as [| |b|n|s|l|o]; simpl in *;
    try (rewrite Hsd; eexists; reflexivity);
    try (eexists; reflexivity).
  destruct (match lookup "detail" o with Some x => x | None => JUndefined end)
    as [| |b|n|s|l|o'] eqn:Hdet; simpl;
    try (destruct b); try (destruct (n =? 0)%Z); try (destruct (s =? ""));
    simpl; try (rewrite Hsd); try (eexists; reflexivity).
  destruct (mapM_renderDetailEntry_safe l (Hsafe l eq_refl)) as [ss ->].
  simpl. eexists. reflexivity.
Qed.

(** Without a response the transport's message is used; a text message, or
    none at all, gives a string. *)
Lemma extrairMensagemErro_string_of_message (error response : JsVal) s :
  get error "response" = Normal response ->
  truthy response = false ->
  get error "message" = Normal (JStr s) ->
  extrairMensagemErro error
  = Normal (JStr (if (s =? "") then mensagemDesconhecida else s)).
Proof.
  intros Hresp Htr Hmsg.
  unfold extrairMensagemErro. rewrite Hresp. simpl. rewrite Htr, Hmsg. simpl.
  now destruct (s =? "").
Qed.

(** C10 — when the body is an object whose [detail] is the empty string, 0,
    [null] or [false], the normalizer does not use [detail]: it returns the
    serialisation of the whole body. *)
Theorem C10_falsy_detail_ignored (error response : JsVal) o d :
  get error "response" = Normal response ->
  truthy response = true ->
  get response "data" = Normal (JObj o) ->
  lookup "detail" o = Some d ->
  d = JStr "" \/ d = JNum 0 \/ d = JNull \/ d = JBool false ->
  exists s,
    stringify (JObj o) = Some s
    /\ extrairMensagemErro error = Normal (JStr s).
Proof.
  intros Hresp Htr Hdata Hdet Hd.
  assert (Hfalsy : truthy d = false)
    by (destruct Hd as [-> | [-> | [-> | ->]]]; reflexivity).
  destruct (stringify_defined (JObj o)) as [s Hs]; [discriminate|].
  exists s. split; [exact Hs|].
  unfold extrairMensagemErro. rewrite Hresp. cbn [bind]. rewrite Htr, Hdata.
  cbn [bind typeof getOpt]. rewrite Hdet, Hfalsy.
  cbn [bind]. unfold jsonStringify. rewrite Hs. reflexivity.
Qed.

Lemma C10_falsy_detail_witness :
  exists s,
    stringify (JObj [("detail", JStr ""); ("erro", JStr "falha")]) = Some s
    /\ extrairMensagemErro
         (JObj [("response",
                 JObj [("data", JObj [("detail", JStr ""); ("erro", JStr "falha")])])])
       = Normal (JStr s).
Proof.
  apply (C10_falsy_detail_ignored
           (JObj [("response",
                   JObj [("data", JObj [("detail", JStr ""); ("erro", JStr "falha")])])])
           (JObj [("data", JObj [("detail", JStr ""); ("erro", JStr "falha")])])
           [("detail", JStr ""); ("erro", JStr "falha")]
           (JStr ""));
    [reflexivity | reflexivity | reflexivity | reflexivity | left; reflexivity].
Defined.

(** ** Batch import orchestrator *)

Import UploadXML.

Lemma length_zero_iff_nil {A} (l : list A) :
  (List.length l =? 0)%nat = true <-> l = [].
Proof.
  destruct l; simpl; split; intros H; try reflexivity; discriminate.
Qed.

(** C1 — a single-file submission that the service answers successfully
    leaves as displayed result an aggregate with [total_arquivos = 1],
    [sucesso = 1], [falhas = 0] and the response body as its one item,
    whatever the body is. *)
Theorem C1_single_file_success
  (API_URL empresaId : string) (onUploadSuccess : bool)
  (post : Request -> Settled) (st : State) (f : File) (response : AxiosResponse) :
  files st = [f] ->
  post {| endpoint := API_URL ++ "/api/notas/importar/" ++ empresaId;
          formData := [("file", f)] |} = Resolved response ->
  let out := handleUpload API_URL empresaId onUploadSuccess post st in
  let res := resultado (state out) in
  getOpt res "total_arquivos" = JNum 1
  /\ getOpt res "sucesso" = JNum 1
  /\ getOpt res "falhas" = JNum 0
  /\ getOpt res "nota" = data response
  /\ res = JObj [("total_arquivos", JNum 1); ("sucesso", JNum 1);
                 ("falhas", JNum 0); ("nota", data response)].
Proof.
  intros Hf Hpost. unfold handleUpload, montarRequest. rewrite Hf.
  cbn [List.length Nat.eqb Nat.ltb Nat.leb map filter fst negb String.eqb
       Ascii.eqb Bool.eqb app].
  rewrite Hpost. simpl. repeat split.
Qed.

Lemma C1_single_file_witness :
  let f := {| name := "nota.xml"; conteudo := "<CompNfse/>" |} in
  let nota := JObj [("numero_nota", JNum 15); ("status_auditoria", JStr "REPROVADA")] in
  let out := handleUpload "http://localhost:8001" "42" true
               (fun _ => Resolved {| data := nota |})
               (setFiles [f] initialState) in
  getOpt (resultado (state out)) "total_arquivos" = JNum 1
  /\ getOpt (resultado (state out)) "sucesso" = JNum 1
  /\ getOpt (resultado (state out)) "falhas" = JNum 0
  /\ getOpt (resultado (state out)) "nota" = nota.
Proof.
  intros f nota out.
  destruct (C1_single_file_success "http://localhost:8001" "42" true
              (fun _ => Resolved {| data := nota |})
              (setFiles [f] initialState) f {| data := nota |})
    as (H1 & H2 & H3 & H4 & _); [reflexivity | reflexivity |].
  repeat split; assumption.
Defined.

(** With two files or more the batch endpoint is used and its body is
    displayed as it came. *)
Lemma handleUpload_batch_success
  (API_URL empresaId : string) (onUploadSuccess : bool)
  (post : Request -> Settled) (st : State) (response : AxiosResponse) :
  (1 < List.length (files st))%nat ->
  post {| endpoint := API_URL ++ "/api/notas/importar-lote/" ++ empresaId;
          formData := map (fun f => ("files", f)) (files st) |} = Resolved response ->
  resultado (state (handleUpload API_URL empresaId onUploadSuccess post st))
  = data response.
Proof.
  intros Hlen Hpost. unfold handleUpload, montarRequest.
  destruct (Nat.eqb_spec (List.length (files st)) 0) as [E|_]; [lia|].
  apply Nat.ltb_lt in Hlen. rewrite Hlen, Hpost. reflexivity.
Qed.

(** C2, as stated, fails: a selection holding a file without the [.xml]
    suffix next to one with it raises no validation error; the other file is
    dropped and the request is sent. *)
Lemma C2_mixed_selection_is_submitted :
  let a := {| name := "nota.xml"; conteudo := "<CompNfse/>" |} in
  let b := {| name := "leia-me.txt"; conteudo := "" |} in
  let post := fun _ : Request => Resolved {| data := JNull |} in
  error (handleFileChange [a; b] initialState) = JStr ""
  /\ requests (submit "http://localhost:8001" "42" false post [a; b] initialState)
     = [ {| endpoint := "http://localhost:8001/api/notas/importar/42";
            formData := [("file", a)] |} ].
Proof. split; reflexivity. Qed.

(** C2, amended — when the files of the selection that carry the [.xml]
    suffix number 0 or more than 100, selecting them raises a validation
    error and empties the selection, and the submission that follows sends
    no request and ends with an error message; files without the suffix are
    dropped from the selection, not rejected. *)
Theorem C2_validation_before_network
  (API_URL empresaId : string) (onUploadSuccess : bool)
  (post : Request -> Settled) (selectedFiles : list File) (st : State) :
  let xmlFiles := filter (fun f => endsWith (name f) ".xml") selectedFiles in
  (List.length xmlFiles = 0 \/ 100 < List.length xmlFiles)%nat ->
  let out := submit API_URL empresaId onUploadSuccess post selectedFiles st in
  truthy (error (handleFileChange selectedFiles st)) = true
  /\ files (handleFileChange selectedFiles st) = []
  /\ requests out = []
  /\ truthy (error (state out)) = true.
Proof.
  intros xmlFiles Hcount out.
  assert (Hsel : files (handleFileChange selectedFiles st) = []
                 /\ truthy (error (handleFileChange selectedFiles st)) = true).
  { unfold handleFileChange. fold xmlFiles.
    destruct (Nat.eqb_spec (List.length xmlFiles) 0) as [E|NE]; [now split|].
    destruct (Nat.ltb_spec 100 (List.length xmlFiles)) as [L|NL]; [now split|lia]. }
  destruct Hsel as [Hfiles Herr].
  unfold out, submit, handleUpload. rewrite Hfiles. simpl.
  repeat split; assumption.
Qed.

Lemma C2_validation_witness :
  let b := {| name := "leia-me.txt"; conteudo := "" |} in
  requests (submit "http://localhost:8001" "42" false
              (fun _ => Resolved {| data := JNull |}) [b] initialState) = []
  /\ error (handleFileChange [b] initialState)
     = JStr "Por favor, selecione apenas arquivos XML válidos".
Proof.
  intros b.
  destruct (C2_validation_before_network "http://localhost:8001" "42" false
              (fun _ => Resolved {| data := JNull |}) [b] initialState)
    as (_ & _ & H & _); [left; reflexivity|].
  split; [exact H | reflexivity].
Defined.

(** Between 1 and 100 [.xml] files: they alone become the selection, and
    they alone are sent. *)
Lemma submit_sends_xml_files_only
  (API_URL empresaId : string) (onUploadSuccess : bool)
  (post : Request -> Settled) (selectedFiles : list File) (st : State) :
  let xmlFiles := filter (fun f => endsWith (name f) ".xml") selectedFiles in
  (1 <= List.length xmlFiles <= 100)%nat ->
  files (handleFileChange selectedFiles st) = xmlFiles
  /\ exists req,
       requests (submit API_URL empresaId onUploadSuccess post selectedFiles st) = [req]
       /\ map snd (formData req) = xmlFiles.
Proof.
  intros xmlFiles Hcount.
  assert (Hsel : files (handleFileChange selectedFiles st) = xmlFiles).
  { unfold handleFileChange. fold xmlFiles.
    destruct (Nat.eqb_spec (List.length xmlFiles) 0) as [E|NE]; [lia|].
    destruct (Nat.ltb_spec 100 (List.length xmlFiles)) as [L|NL]; [lia|reflexivity]. }
  split; [exact Hsel|].
  exists (montarRequest API_URL empresaId (handleFileChange selectedFiles st)).
  unfold submit, handleUpload. rewrite Hsel.
  destruct (Nat.eqb_spec (List.length xmlFiles) 0) as [E|NE]; [lia|].
  split.
  - destruct (post _) as [r|err]; [reflexivity|].
    destruct (get err "response"); reflexivity.
  - unfold montarRequest. rewrite Hsel.
    destruct (Nat.ltb_spec 1 (List.length xmlFiles)) as [L|NL]; simpl.
    + rewrite map_map. simpl. apply map_id.
    + destruct xmlFiles as [|f [|g r]]; simpl in *; try lia. reflexivity.
Qed.

(** C9, as stated, fails: a result is on display after a first, successful
    cycle; the operator selects a file and submits, the call fails; the
    files are still selected but the result that was on display is gone. *)
Lemma C9_failed_cycle_clears_result :
  let a := {| name := "a.xml"; conteudo := "<CompNfse/>" |} in
  let b := {| name := "b.xml"; conteudo := "<CompNfse/>" |} in
  let ok := fun _ : Request => Resolved {| data := JObj [("numero_nota", JNum 1)] |} in
  let ko := fun _ : Request => Rejected (JObj [("message", JStr "Network Error")]) in
  let st1 := state (submit "" "42" false ok [a] initialState) in
  let out := submit "" "42" false ko [b] st1 in
  resultado st1 = resultadoUnico (JObj [("numero_nota", JNum 1)])
  /\ List.length (requests out) = 1%nat
  /\ files (state out) = [b]
  /\ resultado (state out) = JNull
  /\ resultado (state out) <> resultado st1.
Proof. repeat split; discriminate. Qed.

(** C9, amended — in a submission whose call fails the selected files stay
    as they were, and they are emptied when it succeeds; the displayed
    result does not outlive the submission either way: it is reset before
    the call (and already when files are selected), stays reset on failure
    and is replaced by the new result on success. *)
Theorem C9_files_kept_on_failure
  (API_URL empresaId : string) (onUploadSuccess : bool)
  (post : Request -> Settled) (st : State) :
  files st <> [] ->
  let out := handleUpload API_URL empresaId onUploadSuccess post st in
  requests out = [montarRequest API_URL empresaId st]
  /\ match post (montarRequest API_URL empresaId st) with
     | Rejected _ =>
         files (state out) = files st /\ resultado (state out) = JNull
     | Resolved response =>
         files (state out) = []
         /\ resultado (state out)
            = if (1 <? List.length (files st))%nat then data response
              else resultadoUnico (data response)
     end.
Proof.
  intros Hfiles out. unfold out, handleUpload.
  destruct (List.length (files st) =? 0)%nat eqn:E.
  - apply length_zero_iff_nil in E. contradiction.
  - destruct (post (montarRequest API_URL empresaId st)) as [response|err].
    + split; [reflexivity|]. split; reflexivity.
    + destruct (get err "response"); split; try reflexivity; split; reflexivity.
Qed.

Lemma C9_files_kept_witness :
  let b := {| name := "b.xml"; conteudo := "<CompNfse/>" |} in
  let ko := fun _ : Request => Rejected (JObj [("message", JStr "Network Error")]) in
  let st := handleFileChange [b] initialState in
  files (state (handleUpload "" "42" false ko st)) = [b]
  /\ resultado (state (handleUpload "" "42" false ko st)) = JNull.
Proof.
  intros b ko st.
  destruct (C9_files_kept_on_failure "" "42" false ko st) as [_ H];
    [discriminate | exact H].
Defined.

(** Other places that reset the two cells outside a successful submission:
    choosing files resets the result, an empty choice resets the files, and
    so does switching company. *)
Lemma resultado_cleared_elsewhere (selectedFiles : list File) (st : State) :
  let xmlFiles := filter (fun f => endsWith (name f) ".xml") selectedFiles in
  ((1 <= List.length xmlFiles <= 100)%nat ->
     resultado (handleFileChange selectedFiles st) = JNull)
  /\ (xmlFiles = [] -> files (handleFileChange selectedFiles st) = [])
  /\ files (trocarEmpresa st) = []
  /\ resultado (trocarEmpresa st) = JNull.
Proof.
  intros xmlFiles. repeat split.
  - intros H. unfold handleFileChange. fold xmlFiles.
    destruct (Nat.eqb_spec (List.length xmlFiles) 0) as [E|NE]; [lia|].
    destruct (Nat.ltb_spec 100 (List.length xmlFiles)) as [L|NL]; [lia|reflexivity].
  - intros H. unfold handleFileChange. fold xmlFiles. rewrite H. reflexivity.
Qed.

(** Whenever files are selected nothing is on display: the handlers keep
    this, so the result of an earlier submission is already gone when the
    next one is sent. *)
Lemma no_result_while_files_selected
  (API_URL empresaId : string) (onUploadSuccess : bool)
  (post : Request -> Settled) (selectedFiles : list File) (st : State) :
  (files st <> [] -> resultado st = JNull) ->
  (files (handleFileChange selectedFiles st) <> [] ->
     resultado (handleFileChange selectedFiles st) = JNull)
  /\ (files (state (handleUpload API_URL empresaId onUploadSuccess post st)) <> [] ->
       resultado (state (handleUpload API_URL empresaId onUploadSuccess post st)) = JNull)
  /\ (files (trocarEmpresa st) <> [] -> resultado (trocarEmpresa st) = JNull).
Proof.
  intros Hinv. split; [|split].
  - unfold handleFileChange.
    destruct (_ =? 0)%nat; [intros H; now elim H|].
    destruct (100 <? _)%nat; [intros H; now elim H|reflexivity].
  - unfold handleUpload.
    destruct (List.length (files st) =? 0)%nat eqn:E; [exact Hinv|].
    destruct (post _) as [r|err]; [intros H; now elim H|].
    destruct (get err "response"); reflexivity.
  - intros H. now elim H.
Qed.

(** ** Document renderer: money cells *)

Import PdfGenerator.
















(* ================================================================== *)
(** * Further properties of the same components *)
(* ================================================================== *)

(** ** Error normalizer, outside the [detail] list *)

Lemma extrairMensagemErro_string_of_body_witness :
  exists s,
    extrairMensagemErro
      (JObj [("response",
              JObj [("data",
                     JObj [("detail",
                            JArr [JStr "campo vazio";
                                  JObj [("type", JStr "missing")];
                                  JObj [("loc", JArr [JStr "body"; JNum 0]);
                                        ("msg", JStr "invalid")]])])])])
    = Normal (JStr s).
Proof.
  apply (extrairMensagemErro_string_of_body _
           (JObj [("data",
                   JObj [("detail",
                          JArr [JStr "campo vazio";
                                JObj [("type", JStr "missing")];
                                JObj [("loc", JArr [JStr "body"; JNum 0]);
                                      ("msg", JStr "invalid")]])])])
           (JObj [("detail",
                   JArr [JStr "campo vazio";
                         JObj [("type", JStr "missing")];
                         JObj [("loc", JArr [JStr "body"; JNum 0]);
                               ("msg", JStr "invalid")]])]));
    try reflexivity; try discriminate.
  intros l [= <-]. reflexivity.
Defined.

Lemma extrairMensagemErro_string_of_message_witness :
  extrairMensagemErro (JObj [("message", JStr "Network Error")])
  = Normal (JStr "Network Error").
Proof.
  apply (extrairMensagemErro_string_of_message
           (JObj [("message", JStr "Network Error")]) JUndefined "Network Error");
    reflexivity.
Defined.

(** A body that is a text is the message as it stands, even when empty; so
    is a [detail] that is a non-empty text, whatever else the body holds. *)
Theorem extrairMensagemErro_text_verbatim (error response : JsVal) :
  get error "response" = Normal response ->
  truthy response = true ->
  (forall s, get response "data" = Normal (JStr s) ->
     extrairMensagemErro error = Normal (JStr s))
  /\ (forall o s, get response "data" = Normal (JObj o) ->
        lookup "detail" o = Some (JStr s) -> s <> "" ->
        extrairMensagemErro error = Normal (JStr s)).
Proof.
  intros Hresp Htr. split.
  - intros s Hdata. unfold extrairMensagemErro.
    rewrite Hresp. cbn [bind]. rewrite Htr, Hdata. reflexivity.
  - intros o s Hdata Hdet Hs. unfold extrairMensagemErro.
    rewrite Hresp. cbn [bind]. rewrite Htr, Hdata. cbn [bind typeof getOpt get].
    rewrite Hdet. cbn [truthy].
    destruct (s =? "") eqn:E; [apply String.eqb_eq in E; contradiction|].
    reflexivity.
Qed.

Lemma extrairMensagemErro_text_verbatim_witness :
  extrairMensagemErro
    (JObj [("response",
            JObj [("data", JObj [("detail", JStr "CNPJ não encontrado")])])])
  = Normal (JStr "CNPJ não encontrado").
Proof.
  destruct (extrairMensagemErro_text_verbatim
              (JObj [("response",
                      JObj [("data", JObj [("detail", JStr "CNPJ não encontrado")])])])
              (JObj [("data", JObj [("detail", JStr "CNPJ não encontrado")])]))
    as [_ H]; [reflexivity | reflexivity |].
  apply (H [("detail", JStr "CNPJ não encontrado")] "CNPJ não encontrado");
    [reflexivity | reflexivity | discriminate].
Defined.

(** ** Auto-population at its edges *)

Lemma firstn_app_exact {A} (n : nat) (l extra : list A) :
  List.length l = n -> firstn n (l ++ extra)%list = firstn n l.
Proof.
  intros <-. rewrite firstn_app, Nat.sub_diag, firstn_O, app_nil_r.
  reflexivity.
Qed.

(** Entries after the fifth secondary activity are never read: whatever
    follows the first five, [null] included, the result is the same. *)
Theorem cnaesAutoPopulados_ignores_beyond_five
  (principal : JsVal) (l extra : list JsVal) :
  List.length l = 5%nat ->
  cnaesAutoPopulados {| Receita.cnae_principal := principal;
                        Receita.cnaes_secundarios := Some (l ++ extra)%list |}
  = cnaesAutoPopulados {| Receita.cnae_principal := principal;
                          Receita.cnaes_secundarios := Some l |}.
Proof.
  intros Hl. unfold cnaesAutoPopulados.
  cbn [Receita.cnae_principal Receita.cnaes_secundarios].
  rewrite (firstn_app_exact 5 l extra Hl).
  rewrite length_app, Hl. reflexivity.
Qed.

Lemma cnaesAutoPopulados_ignores_beyond_five_witness :
  let c := JObj [("codigo", JNum 6201500)] in
  cnaesAutoPopulados {| Receita.cnae_principal := c;
                        Receita.cnaes_secundarios := Some ([c; c; c; c; c] ++ [JNull])%list |}
  = cnaesAutoPopulados {| Receita.cnae_principal := c;
                          Receita.cnaes_secundarios := Some [c; c; c; c; c] |}.
Proof.
  intros c.
  apply (cnaesAutoPopulados_ignores_beyond_five c [c; c; c; c; c] [JNull]).
  reflexivity.
Defined.

Lemma mapM_cnaeAutoPopulado_nullish (l : list JsVal) :
  existsb (fun e => match e with JNull | JUndefined => true | _ => false end) l = true ->
  mapM cnaeAutoPopulado l = Throw TypeError.
Proof.
  induction l as [|e l IH]; simpl; [discriminate|].
  destruct e; simpl; try reflexivity; intros H;
    rewrite (IH H); reflexivity.
Qed.

(** A [null] (or missing) entry among the first five secondary activities
    makes the auto-population throw a TypeError, whatever the primary
    activity and the other entries are. *)
Theorem cnaesAutoPopulados_null_entry_throws
  (principal : JsVal) (l : list JsVal) :
  existsb (fun e => match e with JNull | JUndefined => true | _ => false end)
          (firstn 5 l) = true ->
  cnaesAutoPopulados {| Receita.cnae_principal := principal;
                        Receita.cnaes_secundarios := Some l |}
  = Throw TypeError.
Proof.
  intros H. unfold cnaesAutoPopulados.
  cbn [Receita.cnae_principal Receita.cnaes_secundarios].
  assert (Hlen : (0 <? List.length l)%nat = true)
    by (destruct l; [discriminate | reflexivity]).
  rewrite Hlen, (mapM_cnaeAutoPopulado_nullish _ H).
  destruct (truthy principal) eqn:Hp.
  - rewrite (cnaeAutoPopulado_truthy principal Hp). reflexivity.
  - reflexivity.
Qed.

Lemma cnaesAutoPopulados_null_entry_witness :
  cnaesAutoPopulados
    {| Receita.cnae_principal := JObj [("codigo", JNum 6201500)];
       Receita.cnaes_secundarios :=
         Some [JObj [("codigo", JStr "6202300")]; JNull] |}
  = Throw TypeError.
Proof.
  apply (cnaesAutoPopulados_null_entry_throws
           (JObj [("codigo", JNum 6201500)])
           [JObj [("codigo", JStr "6202300")]; JNull]).
  reflexivity.
Defined.

(** Without a primary activity the list holds the secondaries alone, at
    most five; with no activity at all it is empty. *)
Theorem cnaesAutoPopulados_without_primary
  (principal : JsVal) (sec : option (list JsVal)) :
  let secundarios := match sec with Some l => l | None => [] end in
  truthy principal = false ->
  forallb ehObjeto secundarios = true ->
  cnaesAutoPopulados {| Receita.cnae_principal := principal;
                        Receita.cnaes_secundarios := sec |}
  = Normal (map entradaDe (firstn 5 secundarios))
  /\ (secundarios = [] ->
        cnaesAutoPopulados {| Receita.cnae_principal := principal;
                              Receita.cnaes_secundarios := sec |} = Normal []).
Proof.
  intros secundarios Hp Hs.
  assert (H : cnaesAutoPopulados {| Receita.cnae_principal := principal;
                                    Receita.cnaes_secundarios := sec |}
              = Normal (map entradaDe (firstn 5 secundarios))).
  { unfold cnaesAutoPopulados.
    cbn [Receita.cnae_principal Receita.cnaes_secundarios]. rewrite Hp. cbn [bind].
    destruct sec as [l|]; [|reflexivity].
    cbn [secundarios] in *.
    destruct l as [|c l]; [reflexivity|].
    cbn [List.length Nat.ltb Nat.leb].
    rewrite mapM_cnaeAutoPopulado by now apply forallb_firstn.
    reflexivity. }
  split; [exact H|]. intros E. rewrite H, E. reflexivity.
Qed.

Lemma cnaesAutoPopulados_without_primary_witness :
  cnaesAutoPopulados {| Receita.cnae_principal := JNull;
                        Receita.cnaes_secundarios := None |}
  = Normal [].
Proof.
  destruct (cnaesAutoPopulados_without_primary JNull None) as [_ H];
    [reflexivity | reflexivity |].
  apply H. reflexivity.
Defined.

(** ** Upload component: selection and submission *)

Lemma forallb_filter_same {A} (p : A -> bool) (l : list A) :
  forallb p (filter p l) = true.
Proof.
  induction l as [|x l IH]; simpl; [reflexivity|].
  destruct (p x) eqn:E; simpl; [now rewrite E|assumption].
Qed.

(** The selection always holds at most 100 files, all named [*.xml]:
    choosing files establishes it from any state, and submitting or
    switching company keeps it. *)
Theorem files_at_most_100_xml
  (API_URL empresaId : string) (onUploadSuccess : bool)
  (post : Request -> Settled) (selectedFiles : list File) (st : State) :
  let valid := fun l : list File =>
    (List.length l <= 100)%nat
    /\ forallb (fun f => endsWith (name f) ".xml") l = true in
  valid (files st) ->
  valid (files (handleFileChange selectedFiles st))
  /\ valid (files (state (handleUpload API_URL empresaId onUploadSuccess post st)))
  /\ valid (files (trocarEmpresa st)).
Proof.
  intros valid [Hlen Hxml].
  assert (Hnil : valid []) by (split; [simpl; lia | reflexivity]).
  split; [|split].
  - unfold handleFileChange.
    destruct (Nat.eqb_spec (List.length (filter (fun f => endsWith (name f) ".xml") selectedFiles)) 0);
      [exact Hnil|].
    destruct (Nat.ltb_spec 100 (List.length (filter (fun f => endsWith (name f) ".xml") selectedFiles)));
      [exact Hnil|].
    split; [assumption | apply forallb_filter_same].
  - unfold handleUpload.
    destruct (List.length (files st) =? 0)%nat; [now split|].
    destruct (post _) as [r|err]; [exact Hnil|].
    destruct (get err "response"); now split.
  - exact Hnil.
Qed.

Lemma files_at_most_100_xml_witness :
  let a := {| name := "a.xml"; conteudo := "<CompNfse/>" |} in
  let b := {| name := "b.pdf"; conteudo := "" |} in
  files (handleFileChange [a; b; a] initialState) = [a; a]
  /\ forallb (fun f => endsWith (name f) ".xml")
       (files (handleFileChange [a; b; a] initialState)) = true.
Proof.
  intros a b.
  destruct (files_at_most_100_xml "" "42" false
              (fun _ => Rejected JNull) [a; b; a] initialState)
    as ((_ & H) & _); [split; [simpl; lia | reflexivity]|].
  split; [reflexivity | exact H].
Defined.

Lemma submit_sends_xml_files_only_witness :
  let a := {| name := "a.xml"; conteudo := "<CompNfse/>" |} in
  let b := {| name := "b.pdf"; conteudo := "" |} in
  let c := {| name := "c.xml"; conteudo := "<CompNfse/>" |} in
  exists req,
    requests (submit "" "42" false (fun _ => Rejected JNull) [a; b; c] initialState)
    = [req]
    /\ map snd (formData req) = [a; c].
Proof.
  intros a b c.
  destruct (submit_sends_xml_files_only "" "42" false
              (fun _ => Rejected JNull) [a; b; c] initialState)
    as [_ H]; [simpl; lia | exact H].
Defined.

Lemma handleUpload_batch_success_witness :
  let a := {| name := "a.xml"; conteudo := "<CompNfse/>" |} in
  let corpo := JObj [("total_arquivos", JNum 2); ("sucesso", JNum 1);
                     ("falhas", JNum 1)] in
  resultado (state (handleUpload "" "42" false
                      (fun _ => Resolved {| data := corpo |})
                      (setFiles [a; a] initialState)))
  = corpo.
Proof.
  intros a corpo.
  apply (handleUpload_batch_success "" "42" false
           (fun _ => Resolved {| data := corpo |})
           (setFiles [a; a] initialState) {| data := corpo |});
    [simpl; lia | reflexivity].
Defined.

Lemma no_result_while_files_selected_witness :
  let a := {| name := "a.xml"; conteudo := "<CompNfse/>" |} in
  resultado (handleFileChange [a] initialState) = JNull.
Proof.
  intros a.
  destruct (no_result_while_files_selected "" "42" false
              (fun _ => Rejected JNull) [a] initialState)
    as [H _]; [reflexivity | apply H; discriminate].
Defined.

Lemma filter_files_field (l : list File) :
  filter (fun kv : string * File => negb (fst kv =? "files"))
         (map (fun f => ("files", f)) l) = [].
Proof. induction l as [|f l IH]; simpl; [reflexivity | exact IH]. Qed.

(** Which endpoint, which field: one selected file goes alone under [file]
    to the single-import address; two or more go, in the order selected,
    under [files] to the batch address.  Either way the request carries the
    selected files and nothing else. *)
Theorem montarRequest_endpoint_by_count
  (API_URL empresaId : string) (st : State) :
  files st <> [] ->
  let req := montarRequest API_URL empresaId st in
  map snd (formData req) = files st
  /\ (List.length (files st) = 1%nat ->
        endpoint req = API_URL ++ "/api/notas/importar/" ++ empresaId
        /\ map fst (formData req) = ["file"])
  /\ ((2 <= List.length (files st))%nat ->
        endpoint req = API_URL ++ "/api/notas/importar-lote/" ++ empresaId
        /\ Forall (fun k => k = "files") (map fst (formData req))).
Proof.
  intros Hne req. unfold req, montarRequest.
  destruct (files st) as [|f [|g r]] eqn:E; [contradiction| |].
  - cbn [List.length Nat.ltb Nat.leb formData endpoint].
    rewrite filter_files_field. cbn [app map snd fst].
    split; [reflexivity|]. split; [now split|]. intros H. simpl in H. lia.
  - cbn [List.length Nat.ltb Nat.leb formData endpoint].
    rewrite !map_map. cbn [snd fst].
    split; [apply map_id|]. split; [intros H; simpl in H; lia|].
    intros _. split; [reflexivity|].
    apply Forall_forall. intros k Hk. apply in_map_iff in Hk as (x & <- & _).
    reflexivity.
Qed.

Lemma montarRequest_endpoint_witness :
  let a := {| name := "a.xml"; conteudo := "<CompNfse/>" |} in
  let b := {| name := "b.xml"; conteudo := "<CompNfse/>" |} in
  endpoint (montarRequest "http://localhost:8001" "42" (setFiles [a; b] initialState))
  = "http://localhost:8001/api/notas/importar-lote/42"
  /\ map snd (formData (montarRequest "http://localhost:8001" "42"
                          (setFiles [a; b] initialState))) = [a; b].
Proof.
  intros a b.
  destruct (montarRequest_endpoint_by_count "http://localhost:8001" "42"
              (setFiles [a; b] initialState))
    as (H1 & _ & H2); [discriminate|].
  destruct H2 as [H2 _]; [simpl; lia|].
  split; [rewrite H2; reflexivity | exact H1].
Defined.

(** A failed call: the message shown is the [detail] of the error body when
    there is one, else the fixed text; the spinner and the progress are
    reset, the callback is not called; and the handler's promise rejects
    exactly when that [detail] is neither a text nor a list. *)
Theorem handleUpload_failure_message
  (API_URL empresaId : string) (onUploadSuccess : bool)
  (post : Request -> Settled) (st : State) (err : JsVal) :
  files st <> [] ->
  post (montarRequest API_URL empresaId st) = Rejected err ->
  err <> JNull -> err <> JUndefined ->
  let out := handleUpload API_URL empresaId onUploadSuccess post st in
  let detail := getOpt (getOpt (getOpt err "response") "data") "detail" in
  error (state out) = (if truthy detail then detail
                       else JStr "Erro ao processar arquivos")
  /\ loading (state out) = false
  /\ progresso (state out) = None
  /\ notified out = false
  /\ rejected out
     = truthy detail && negb (match detail with JStr _ | JArr _ => true | _ => false end).
Proof.
  intros Hne Hpost Hn Hu out detail. unfold out, handleUpload.
  destruct (List.length (files st) =? 0)%nat eqn:E;
    [apply length_zero_iff_nil in E; contradiction|].
  rewrite Hpost.
  assert (Hget : get err "response" = Normal (getOpt err "response"))
    by (destruct err; try reflexivity; contradiction).
  rewrite Hget. cbn [state requests notified rejected].
  fold detail. unfold or.
  destruct (truthy detail) eqn:Ht; repeat split.
Qed.

Lemma handleUpload_failure_message_witness :
  let a := {| name := "a.xml"; conteudo := "<CompNfse/>" |} in
  let err := JObj [("response",
                    JObj [("data", JObj [("detail", JStr "Erro de Isolamento: CNPJ")])])] in
  error (state (handleUpload "" "42" false (fun _ => Rejected err)
                  (setFiles [a] initialState)))
  = JStr "Erro de Isolamento: CNPJ".
Proof.
  intros a err.
  destruct (handleUpload_failure_message "" "42" false (fun _ => Rejected err)
              (setFiles [a] initialState) err)
    as [H _]; [discriminate | reflexivity | discriminate | discriminate | exact H].
Defined.

(** [handleUpload] sends nothing without files and otherwise exactly one
    request; when it has run, with or without success, the spinner is off
    and the progress is gone. *)
Theorem handleUpload_one_request_then_idle
  (API_URL empresaId : string) (onUploadSuccess : bool)
  (post : Request -> Settled) (st : State) :
  let out := handleUpload API_URL empresaId onUploadSuccess post st in
  (files st = [] ->
     requests out = []
     /\ state out = setError (JStr "Selecione pelo menos um arquivo") st)
  /\ (files st <> [] ->
        List.length (requests out) = 1%nat
        /\ loading (state out) = false
        /\ progresso (state out) = None).
Proof.
  intros out. unfold out, handleUpload. split.
  - intros ->. split; reflexivity.
  - intros Hne.
    destruct (List.length (files st) =? 0)%nat eqn:E;
      [apply length_zero_iff_nil in E; contradiction|].
    destruct (post _) as [r|err]; [repeat split|].
    destruct (get err "response"); repeat split.
Qed.

Lemma handleUpload_one_request_witness :
  requests (handleUpload "" "42" false (fun _ => Resolved {| data := JNull |})
              initialState) = [].
Proof.
  destruct (handleUpload_one_request_then_idle "" "42" false
              (fun _ => Resolved {| data := JNull |}) initialState)
    as [H _].
  destruct H as [H _]; [reflexivity | exact H].
Defined.

(** ** The mask while typing *)

Section MaskWhileTyping.
Import CadastroEmpresa.

Lemma aplicarMascaraCNPJ_of_digits (valor : string) :
  aplicarMascaraCNPJ (limparCNPJ valor) = aplicarMascaraCNPJ valor.
Proof.
  unfold aplicarMascaraCNPJ, limparCNPJ.
  now rewrite (removeNonDigits_id _ (allDigits_removeNonDigits valor)).
Qed.

(** The mask looks at the digits of its input only, so masking a masked
    value changes nothing: the field can be re-masked at every keystroke. *)
Theorem aplicarMascaraCNPJ_idempotent (valor : string) :
  aplicarMascaraCNPJ (aplicarMascaraCNPJ valor) = aplicarMascaraCNPJ valor
  /\ (forall outro, limparCNPJ outro = limparCNPJ valor ->
        aplicarMascaraCNPJ outro = aplicarMascaraCNPJ valor).
Proof.
  split.
  - rewrite <- (aplicarMascaraCNPJ_of_digits (aplicarMascaraCNPJ valor)).
    rewrite limparCNPJ_aplicarMascaraCNPJ.
    apply aplicarMascaraCNPJ_of_digits.
  - intros outro H.
    rewrite <- (aplicarMascaraCNPJ_of_digits outro), H.
    apply aplicarMascaraCNPJ_of_digits.
Qed.

Lemma matchGroups_count (fixed : list nat) : forall k s gs rest,
  matchGroups fixed k s = Some (gs, rest) ->
  List.length gs = S (List.length fixed).
Proof.
  induction fixed as [|n fixed IH]; intros k s gs rest; simpl.
  - destruct (digitsUpTo k s). intros [= <- _]. reflexivity.
  - destruct (digitsExactly n s) as [[g s']|]; [|discriminate].
    destruct (matchGroups fixed k s') as [[gs' rest']|] eqn:E; [|discriminate].
    intros [= <- _]. simpl. now rewrite (IH _ _ _ _ E).
Qed.

Lemma length_fold_append (gs : list string) (rest : string) :
  String.length (fold_right append rest gs)
  = (list_sum (map String.length gs) + String.length rest)%nat.
Proof.
  induction gs as [|g gs IH]; simpl; [reflexivity|].
  rewrite length_append, IH. lia.
Qed.

Lemma length_substitute (gs : list string) : forall seps,
  (List.length seps < List.length gs)%nat ->
  String.length (substitute seps gs)
  = (list_sum (map String.length gs) + list_sum (map String.length seps))%nat.
Proof.
  induction gs as [|g gs IH]; intros seps H; simpl in *; [lia|].
  destruct seps as [|sep seps]; simpl in *.
  - rewrite length_append.
    destruct gs as [|g' gs'].
    + simpl. lia.
    + rewrite (IH []) by (simpl; lia). simpl. lia.
  - rewrite !length_append, IH by lia. lia.
Qed.

(** The punctuated form is as long as the digits plus the separators. *)
Lemma length_replaceFirst fixed k seps s :
  allDigits s = true -> (list_sum fixed <= String.length s)%nat ->
  List.length seps = List.length fixed ->
  String.length (replaceFirst fixed k seps s)
  = (String.length s + list_sum (map String.length seps))%nat.
Proof.
  intros Hs Hlen Hseps. rewrite replaceFirst_unfold.
  destruct (matchGroups_digits fixed k s Hs Hlen) as (gs & rest & E & Hfold).
  rewrite E. apply matchGroups_count in E.
  rewrite length_append, length_substitute by lia.
  rewrite <- Hfold, length_fold_append. lia.
Qed.

(** A value with at most 14 digits, whatever else it holds, is masked into
    at most 18 characters, the [maxLength] of the field, and into exactly 18
    when the digits are 14. *)
Theorem aplicarMascaraCNPJ_fits_field (valor : string) :
  (String.length (limparCNPJ valor) <= 14)%nat ->
  (String.length (aplicarMascaraCNPJ valor) <= 18)%nat
  /\ (String.length (limparCNPJ valor) = 14%nat ->
        String.length (aplicarMascaraCNPJ valor) = 18%nat).
Proof.
  unfold limparCNPJ, aplicarMascaraCNPJ. intros Hlen.
  pose proof (allDigits_removeNonDigits valor) as Hd.
  set (numeros := removeNonDigits valor) in *.
  destruct (Nat.leb_spec (String.length numeros) 2); [split; lia|].
  destruct (Nat.leb_spec (String.length numeros) 5);
    [rewrite length_replaceFirst by (simpl; auto; lia); simpl; split; lia|].
  destruct (Nat.leb_spec (String.length numeros) 8);
    [rewrite length_replaceFirst by (simpl; auto; lia); simpl; split; lia|].
  destruct (Nat.leb_spec (String.length numeros) 12);
    [rewrite length_replaceFirst by (simpl; auto; lia); simpl; split; lia|].
  rewrite length_replaceFirst by (simpl; auto; lia). simpl. split; lia.
Qed.

Lemma aplicarMascaraCNPJ_fits_field_witness :
  String.length (aplicarMascaraCNPJ "12345678000195") = 18%nat.
Proof.
  destruct (aplicarMascaraCNPJ_fits_field "12345678000195") as [_ H];
    [simpl; lia | apply H; reflexivity].
Defined.

End MaskWhileTyping.

(** ** The name of the saved PDF *)

Section FileName.
Import CadastroEmpresa PdfArquivo.

(** The file is named [NFSe_<number>_<date>.pdf]: the number as printed,
    or [SEM_NUMERO]; the date part is never empty, it is the digits of the
    issue date, or [sem_data] when the date is absent or has no digit.  A
    date that is a number makes the call throw, with no file saved. *)
Theorem nomeArquivo_shape
  (numeroParaTexto : Numero -> string) (numero_nota data_emissao : Valor) :
  match data_emissao with
  | Num _ => nomeArquivo numeroParaTexto numero_nota data_emissao = Throw TypeError
  | _ =>
      exists d,
        nomeArquivo numeroParaTexto numero_nota data_emissao
        = Normal ("NFSe_" ++ texto numeroParaTexto (ou numero_nota (Str "SEM_NUMERO"))
                  ++ "_" ++ d ++ ".pdf")
        /\ d <> ""
        /\ (d = "sem_data" \/ allDigits d = true)
        /\ d = match data_emissao with
               | Str s => if (removeNonDigits s =? "") then "sem_data"
                          else removeNonDigits s
               | _ => "sem_data"
               end
  end.
Proof.
  destruct data_emissao as [|n|s]; [| reflexivity |].
  - exists "sem_data". repeat split; [discriminate | now left].
  - unfold nomeArquivo, somenteDigitos. cbn [bind].
    unfold ou at 2. cbn [truthyValor].
    destruct (removeNonDigits s =? "") eqn:E; cbn [negb texto].
    + exists "sem_data". repeat split; [discriminate | now left].
    + exists (removeNonDigits s). repeat split.
      * intros H. rewrite H in E. discriminate.
      * right. apply allDigits_removeNonDigits.
Qed.

(** An ISO date gives its fourteen digits. *)
Example nomeArquivo_iso_date :
  nomeArquivo (fun _ => "") (Str "2024/15") (Str "2024-03-15T10:30:00")
  = Normal "NFSe_2024/15_20240315103000.pdf".
Proof. reflexivity. Qed.

End FileName.

Lemma aplicarMascaraCNPJ_idempotent_witness :
  aplicarMascaraCNPJ "12.345.678/0001-95" = aplicarMascaraCNPJ "12345678000195".
Proof.
  destruct (aplicarMascaraCNPJ_idempotent "12345678000195") as [_ H].
  apply H. reflexivity.
Defined.

(** ** The registration form *)

Section FormProperties.
Import CadastroEmpresa CadastroForm.

Variable API_URL : string.
Variable get : string -> Consulta.
Variable post : Cadastro -> Envio.
Variable textoTypeError : string.

Lemma tratarErro_state (err : JsVal) (st : State) cs ps :
  let out := tratarErro err st cs ps in
  loading (state out) = false
  /\ step (state out) = step st
  /\ formData (state out) = formData st
  /\ dadosReceita (state out) = dadosReceita st
  /\ cnpj (state out) = cnpj st
  /\ consultas out = cs /\ cadastros out = ps /\ notified out = false.
Proof.
  unfold tratarErro. destruct (extrairMensagemErro err); repeat split.
Qed.

(** A CNPJ field that does not hold exactly 14 digits is refused on the
    spot: no lookup is sent, the fixed message is shown, and the step, the
    form and the stored registry data stay as they were. *)
Theorem consultarCNPJ_rejects_wrong_length (st : State) :
  String.length (limparCNPJ (cnpj st)) <> 14%nat ->
  let out := consultarCNPJ API_URL get textoTypeError st in
  consultas out = []
  /\ error (state out) = JStr "CNPJ inválido. Digite 14 números."
  /\ loading (state out) = false
  /\ step (state out) = step st
  /\ formData (state out) = formData st
  /\ dadosReceita (state out) = dadosReceita st.
Proof.
  intros H out. unfold out, consultarCNPJ.
  destruct (Nat.eqb_spec (String.length (limparCNPJ (cnpj st))) 14);
    [contradiction|].
  repeat split.
Qed.

(** Whatever was typed or pasted into the field, if it holds 14 digits the
    lookup goes to the address ending in exactly those digits, once. *)
Theorem consultarCNPJ_sends_digits (valorDigitado : string) (st : State) :
  String.length (limparCNPJ valorDigitado) = 14%nat ->
  consultas (consultarCNPJ API_URL get textoTypeError (handleCnpjChange valorDigitado st))
  = [API_URL ++ "/api/empresas/consulta/" ++ limparCNPJ valorDigitado].
Proof.
  intros H. unfold consultarCNPJ, handleCnpjChange. cbn [cnpj setCnpj].
  rewrite limparCNPJ_aplicarMascaraCNPJ, H. cbn [Nat.eqb negb].
  destruct (get _) as [dados|err].
  - destruct (cnaesAutoPopulados (Corpo.atividades dados)); [reflexivity|].
    apply tratarErro_state.
  - apply tratarErro_state.
Qed.

Lemma cnaesAutoPopulados_objects (principal : JsVal) (sec : option (list JsVal)) :
  truthy principal = true ->
  forallb ehObjeto (match sec with Some l => l | None => [] end) = true ->
  cnaesAutoPopulados {| Receita.cnae_principal := principal;
                        Receita.cnaes_secundarios := sec |}
  = Normal (map entradaDe
              (principal :: firstn 5 (match sec with Some l => l | None => [] end))).
Proof.
  intros Hp Hs. unfold cnaesAutoPopulados.
  cbn [Receita.cnae_principal Receita.cnaes_secundarios].
  rewrite Hp, (cnaeAutoPopulado_truthy principal Hp). cbn [bind].
  destruct sec as [l|]; [|reflexivity].
  destruct l as [|c l]; [reflexivity|].
  cbn [List.length Nat.ltb Nat.leb].
  rewrite mapM_cnaeAutoPopulado by now apply forallb_firstn.
  reflexivity.
Qed.

(** A lookup that succeeds moves the form to step 2 with the registry data
    stored and the activity list replaced by the auto-populated entries; the
    regime and the rate chosen so far are kept, and no error is shown. *)
Theorem consultarCNPJ_success (st : State) (dados : Corpo.DadosReceita) :
  String.length (limparCNPJ (cnpj st)) = 14%nat ->
  get (API_URL ++ "/api/empresas/consulta/" ++ limparCNPJ (cnpj st))
  = Respondida dados ->
  truthy (Receita.cnae_principal (Corpo.atividades dados)) = true ->
  forallb ehObjeto
    (match Receita.cnaes_secundarios (Corpo.atividades dados) with
     | Some l => l | None => [] end) = true ->
  let out := consultarCNPJ API_URL get textoTypeError st in
  step (state out) = 2%nat
  /\ dadosReceita (state out) = Some dados
  /\ cnaes_permitidos (formData (state out))
     = map entradaDe
         (Receita.cnae_principal (Corpo.atividades dados)
          :: firstn 5 (match Receita.cnaes_secundarios (Corpo.atividades dados) with
                       | Some l => l | None => [] end))
  /\ regime_tributario (formData (state out)) = regime_tributario (formData st)
  /\ aliquota_imposto (formData (state out)) = aliquota_imposto (formData st)
  /\ error (state out) = JStr ""
  /\ loading (state out) = false.
Proof.
  intros Hlen Hget Hp Hs out. unfold out, consultarCNPJ.
  rewrite Hlen. cbn [Nat.eqb negb]. rewrite Hget.
  destruct (Corpo.atividades dados) as [principal sec].
  cbn [Receita.cnae_principal Receita.cnaes_secundarios] in *.
  rewrite (cnaesAutoPopulados_objects principal sec Hp Hs).
  repeat split.
Qed.

(** A lookup that fails leaves the form where it was (same step, same
    entries, same stored data) and shows the normalizer's message; when the
    normalizer itself throws, no message is shown at all and the handler's
    promise rejects. *)
Theorem consultarCNPJ_failure (st : State) (err : JsVal) :
  String.length (limparCNPJ (cnpj st)) = 14%nat ->
  get (API_URL ++ "/api/empresas/consulta/" ++ limparCNPJ (cnpj st))
  = Recusada err ->
  let out := consultarCNPJ API_URL get textoTypeError st in
  step (state out) = step st
  /\ formData (state out) = formData st
  /\ dadosReceita (state out) = dadosReceita st
  /\ loading (state out) = false
  /\ match extrairMensagemErro err with
     | Normal mensagemErro =>
         error (state out) = mensagemErro /\ rejected out = false
     | Throw _ => error (state out) = JStr "" /\ rejected out = true
     end.
Proof.
  intros Hlen Hget out. unfold out, consultarCNPJ.
  rewrite Hlen. cbn [Nat.eqb negb]. rewrite Hget.
  unfold tratarErro. destruct (extrairMensagemErro err); repeat split.
Qed.

(** Both requests of the form end with the spinner off, on every path:
    refused locally, answered, failed, or failed with a normalizer that
    throws. *)
Theorem form_handlers_end_idle (st : State) :
  loading (state (consultarCNPJ API_URL get textoTypeError st)) = false
  /\ loading (state (cadastrarEmpresa post textoTypeError st)) = false.
Proof.
  split.
  - unfold consultarCNPJ.
    destruct (negb _); [reflexivity|].
    destruct (get _) as [dados|err]; [|apply tratarErro_state].
    destruct (cnaesAutoPopulados _); [reflexivity | apply tratarErro_state].
  - unfold cadastrarEmpresa.
    destruct (dadosReceita st); [|apply tratarErro_state].
    destruct (post _); [reflexivity | apply tratarErro_state].
Qed.

Lemma filterIndexed_keep_all {A} (l : list A) : forall m n,
  (m < n)%nat ->
  filterIndexed (fun (_ : A) j => negb (j =? m)%nat) n l = l.
Proof.
  induction l as [|x l IH]; intros m n Hmn; simpl; [reflexivity|].
  destruct (Nat.eqb_spec n m); [lia|]. simpl. f_equal. apply IH. lia.
Qed.

Lemma filterIndexed_remove {A} (l : list A) : forall i k t,
  t = (i + k)%nat ->
  filterIndexed (fun (_ : A) j => negb (j =? t)%nat) k l
  = (firstn i l ++ skipn (S i) l)%list.
Proof.
  induction l as [|x l IH]; intros i k t Ht; simpl.
  - now destruct i.
  - destruct i as [|i]; simpl.
    + destruct (Nat.eqb_spec k t); [|lia]. simpl.
      apply filterIndexed_keep_all. lia.
    + destruct (Nat.eqb_spec k t); [lia|]. simpl. f_equal.
      apply IH. lia.
Qed.

(** Removing entry [index] keeps every other entry, in order; an index
    past the end removes nothing.  The regime and the rate are untouched. *)
Theorem removerCNAE_removes_one (index : nat) (st : State) :
  let l := cnaes_permitidos (formData st) in
  let l' := cnaes_permitidos (formData (removerCNAE index st)) in
  l' = (firstn index l ++ skipn (S index) l)%list
  /\ ((index < List.length l)%nat -> S (List.length l') = List.length l)
  /\ ((List.length l <= index)%nat -> l' = l)
  /\ regime_tributario (formData (removerCNAE index st)) = regime_tributario (formData st)
  /\ aliquota_imposto (formData (removerCNAE index st)) = aliquota_imposto (formData st).
Proof.
  intros l l'.
  assert (H : l' = (firstn index l ++ skipn (S index) l)%list).
  { unfold l', removerCNAE. cbn [formData setFormData comCnaes cnaes_permitidos].
    fold l. apply filterIndexed_remove. lia. }
  split; [exact H|]. split; [|split; [|split; reflexivity]].
  - intros Hi. rewrite H, length_app, length_firstn, length_skipn. lia.
  - intros Hi. rewrite H, firstn_all2, skipn_all2 by lia. apply app_nil_r.
Qed.

(** Adding an entry puts a blank one at the end; removing it again gives
    back the list as it was. *)
Theorem adicionarCNAE_then_remover (st : State) :
  let l := cnaes_permitidos (formData st) in
  cnaes_permitidos (formData (adicionarCNAE st)) = (l ++ [cnaeEmBranco])%list
  /\ cnaes_permitidos
       (formData (removerCNAE (List.length l) (adicionarCNAE st))) = l.
Proof.
  intros l. split; [reflexivity|].
  cbn [removerCNAE adicionarCNAE formData setFormData comCnaes cnaes_permitidos].
  fold l.
  rewrite (filterIndexed_remove (l ++ [cnaeEmBranco])%list (List.length l) 0 (List.length l))
    by lia.
  rewrite firstn_app, firstn_all, Nat.sub_diag, firstn_O, app_nil_r.
  rewrite skipn_all2 by (rewrite length_app; simpl; lia).
  apply app_nil_r.
Qed.

Lemma atribuirEm_spec (campo : Campo) (valor : string) (l : list CnaePermitido) :
  forall index,
  match atribuirEm index campo valor l with
  | Some l' =>
      (index < List.length l)%nat
      /\ List.length l' = List.length l
      /\ nth_error l' index = option_map (atribuir campo valor) (nth_error l index)
      /\ forall j, j <> index -> nth_error l' j = nth_error l j
  | None => (List.length l <= index)%nat
  end.
Proof.
  induction l as [|c l IH]; intros index;
    [destruct index; simpl; lia|].
  destruct index as [|i]; simpl.
  - split; [lia|]. split; [reflexivity|]. split; [reflexivity|].
    intros [|j] Hj; [contradiction | reflexivity].
  - specialize (IH i). destruct (atribuirEm i campo valor l) as [l'|].
    + destruct IH as (Hi & Hlen & Hnth & Hrest).
      split; [lia|]. split; [simpl; now rewrite Hlen|]. split; [exact Hnth|].
      intros [|j] Hj; [reflexivity|]. simpl. apply Hrest. lia.
    + lia.
Qed.

(** Editing a field of entry [index] changes that field of that entry and
    nothing else; with an index past the end the handler throws and the
    form is left alone. *)
Theorem atualizarCNAE_updates_one
  (index : nat) (campo : Campo) (valor : string) (st : State) :
  let l := cnaes_permitidos (formData st) in
  match atualizarCNAE index campo valor st with
  | Normal st' =>
      let l' := cnaes_permitidos (formData st') in
      (index < List.length l)%nat
      /\ List.length l' = List.length l
      /\ nth_error l' index = option_map (atribuir campo valor) (nth_error l index)
      /\ (forall j, j <> index -> nth_error l' j = nth_error l j)
      /\ regime_tributario (formData st') = regime_tributario (formData st)
      /\ aliquota_imposto (formData st') = aliquota_imposto (formData st)
  | Throw _ => (List.length l <= index)%nat
  end.
Proof.
  intros l. unfold atualizarCNAE. fold l.
  pose proof (atribuirEm_spec campo valor l index) as H.
  destruct (atribuirEm index campo valor l) as [l'|]; [|exact H].
  destruct H as (H1 & H2 & H3 & H4). repeat split; assumption.
Qed.

Lemma cnaeParaEnviar_text (c : CnaePermitido) :
  camposDeTexto c = true -> cnaeParaEnviar c = c.
Proof.
  destruct c as [codigo desc servico]. unfold camposDeTexto, cnaeParaEnviar.
  cbn [cnae_codigo descricao codigo_servico_municipal].
  destruct codigo as [| | | |s| |]; try discriminate.
  destruct servico as [| | | |t| |]; try discriminate. intros _.
  unfold or. cbn [truthy].
  destruct (s =? "") eqn:Es; destruct (t =? "") eqn:Et; cbn [negb toString];
    try (apply String.eqb_eq in Es; subst s);
    try (apply String.eqb_eq in Et; subst t); reflexivity.
Qed.

Lemma cnaeParaEnviar_shape (c : CnaePermitido) :
  typeof (cnae_codigo (cnaeParaEnviar c)) = TyString
  /\ codigo_servico_municipal (cnaeParaEnviar c) <> JNull
  /\ codigo_servico_municipal (cnaeParaEnviar c) <> JUndefined
  /\ descricao (cnaeParaEnviar c) = descricao c.
Proof.
  unfold cnaeParaEnviar. cbn [cnae_codigo descricao codigo_servico_municipal].
  repeat split; unfold or;
    destruct (codigo_servico_municipal c); simpl; try discriminate;
    match goal with |- context [if ?b then _ else _] => destruct b end;
    discriminate.
Qed.

(** With registry data stored, registering sends exactly one request: the
    three identity members of the registry, the chosen regime, the rate of
    the form when it is truthy and 6 otherwise (so never zero or [NaN]), a
    [null] opening date, and one entry per entry of the
    form, in order, each with a text code and a municipal service code that
    is never [null] or [undefined].  Without registry data nothing is
    sent. *)
Theorem cadastrarEmpresa_request (st : State) :
  let out := cadastrarEmpresa post textoTypeError st in
  match dadosReceita st with
  | Some dados =>
      exists envio,
        cadastros out = [envio]
        /\ envio_cnpj envio = Corpo.cnpj dados
        /\ envio_razao_social envio = Corpo.razao_social dados
        /\ envio_nome_fantasia envio = Corpo.nome_fantasia dados
        /\ envio_regime_tributario envio = regime_tributario (formData st)
        /\ truthyValor (Num (envio_aliquota_imposto envio)) = true
        /\ envio_aliquota_imposto envio
           = (if truthyValor (Num (aliquota_imposto (formData st)))
              then aliquota_imposto (formData st)
              else Finito 6 0)
        /\ envio_data_abertura envio = JNull
        /\ List.length (envio_cnaes_permitidos envio)
           = List.length (cnaes_permitidos (formData st))
        /\ map descricao (envio_cnaes_permitidos envio)
           = map descricao (cnaes_permitidos (formData st))
        /\ Forall (fun c => typeof (cnae_codigo c) = TyString
                            /\ codigo_servico_municipal c <> JNull
                            /\ codigo_servico_municipal c <> JUndefined)
             (envio_cnaes_permitidos envio)
        /\ (post envio = Aceito -> notified out = true)
  | None => cadastros out = [] /\ notified out = false
  end.
Proof.
  intros out. unfold out, cadastrarEmpresa.
  destruct (dadosReceita st) as [dados|]; [|split; apply tratarErro_state].
  eexists. split.
  - destruct (post _); [reflexivity | apply tratarErro_state].
  - cbn [envio_cnpj envio_razao_social envio_nome_fantasia envio_regime_tributario
         envio_aliquota_imposto envio_data_abertura envio_cnaes_permitidos].
    repeat split.
    + destruct (aliquota_imposto (formData st)) as [|neg| |m e]; simpl;
        try reflexivity.
      destruct (m =? 0)%Z eqn:E; simpl; [reflexivity | now rewrite E].
    + destruct (aliquota_imposto (formData st)) as [|neg| |m e]; simpl;
        try reflexivity.
      now destruct (m =? 0)%Z.
    + apply length_map.
    + rewrite map_map. apply map_ext. intros c. apply cnaeParaEnviar_shape.
    + apply Forall_forall. intros c Hc. apply in_map_iff in Hc as (c0 & <- & _).
      pose proof (cnaeParaEnviar_shape c0) as (H1 & H2 & H3 & _). now repeat split.
    + intros Hpost. rewrite Hpost. reflexivity.
Qed.

Lemma mapM_cnaeAutoPopulado_text (l : list JsVal) : forall out,
  mapM cnaeAutoPopulado l = Normal out -> forallb camposDeTexto out = true.
Proof.
  induction l as [|c l IH]; intros out; simpl.
  - intros [= <-]. reflexivity.
  - unfold cnaeAutoPopulado at 1.
    destruct (Js.get c "codigo") as [codigo|]; [|discriminate]. cbn [bind].
    destruct (Js.get c "descricao") as [desc|]; [|discriminate]. cbn [bind].
    destruct (mapM cnaeAutoPopulado l) as [out'|]; [|discriminate]. cbn [bind].
    intros [= <-]. cbn [forallb]. rewrite (IH out' eq_refl).
    unfold camposDeTexto. cbn [cnae_codigo codigo_servico_municipal].
    now destruct (truthy codigo).
Qed.

Lemma cnaesAutoPopulados_text (dados : Receita.Dados) : forall out,
  cnaesAutoPopulados dados = Normal out -> forallb camposDeTexto out = true.
Proof.
  intros out. unfold cnaesAutoPopulados.
  destruct (truthy (Receita.cnae_principal dados)).
  - destruct (cnaeAutoPopulado (Receita.cnae_principal dados)) as [p|] eqn:Ep;
      [|discriminate]. cbn [bind].
    assert (Hp : camposDeTexto p = true).
    { pose proof (mapM_cnaeAutoPopulado_text [Receita.cnae_principal dados] [p]) as H.
      simpl in H. rewrite Ep in H. specialize (H eq_refl).
      now apply andb_true_iff in H as [H _]. }
    destruct (Receita.cnaes_secundarios dados) as [l|]; cbn [bind].
    + destruct (0 <? List.length l)%nat; cbn [bind].
      * destruct (mapM cnaeAutoPopulado (firstn 5 l)) as [s|] eqn:Es; [|discriminate].
        cbn [bind]. intros [= <-]. cbn [app forallb].
        now rewrite Hp, (mapM_cnaeAutoPopulado_text _ _ Es).
      * intros [= <-]. simpl. now rewrite Hp.
    + intros [= <-]. simpl. now rewrite Hp.
  - cbn [bind]. destruct (Receita.cnaes_secundarios dados) as [l|]; cbn [bind].
    + destruct (0 <? List.length l)%nat; cbn [bind].
      * destruct (mapM cnaeAutoPopulado (firstn 5 l)) as [s|] eqn:Es; [|discriminate].
        cbn [bind]. intros [= <-]. cbn [app].
        apply (mapM_cnaeAutoPopulado_text _ _ Es).
      * intros [= <-]. reflexivity.
    + intros [= <-]. reflexivity.
Qed.

Lemma forallb_filterIndexed {A} (f : A -> bool) (p : A -> nat -> bool) (l : list A) :
  forall i, forallb f l = true -> forallb f (filterIndexed p i l) = true.
Proof.
  induction l as [|x l IH]; intros i H; simpl in *; [reflexivity|].
  apply andb_true_iff in H as [Hx Hl].
  destruct (p x i); simpl; [rewrite Hx|]; now apply IH.
Qed.

Lemma atribuirEm_text (campo : Campo) (valor : string) (l : list CnaePermitido) :
  forall index l',
  forallb camposDeTexto l = true ->
  atribuirEm index campo valor l = Some l' ->
  forallb camposDeTexto l' = true.
Proof.
  induction l as [|c l IH]; intros index l' H;
    [destruct index; discriminate|].
  cbn [forallb] in H. apply andb_true_iff in H as [Hc Hl].
  destruct index as [|i]; simpl.
  - intros [= <-]. simpl. rewrite Hl, andb_true_r.
    unfold camposDeTexto in *. destruct campo; simpl;
      destruct (cnae_codigo c), (codigo_servico_municipal c);
      try discriminate; reflexivity.
  - destruct (atribuirEm i campo valor l) as [r|] eqn:E; [|discriminate].
    intros [= <-]. simpl. now rewrite Hc, (IH i r Hl E).
Qed.

(** The code and the municipal service code of every entry of the form are
    always texts: the lookup, adding, removing and editing keep it so.
    Hence the clean-up applied when registering changes nothing, and the
    request carries the entries exactly as the form shows them. *)
Theorem form_entries_stay_text (st : State) :
  forallb camposDeTexto (cnaes_permitidos (formData st)) = true ->
  forallb camposDeTexto (cnaes_permitidos (formData (state (consultarCNPJ API_URL get textoTypeError st)))) = true
  /\ forallb camposDeTexto (cnaes_permitidos (formData (adicionarCNAE st))) = true
  /\ (forall index,
        forallb camposDeTexto (cnaes_permitidos (formData (removerCNAE index st))) = true)
  /\ (forall index campo valor st',
        atualizarCNAE index campo valor st = Normal st' ->
        forallb camposDeTexto (cnaes_permitidos (formData st')) = true)
  /\ map cnaeParaEnviar (cnaes_permitidos (formData st))
     = cnaes_permitidos (formData st).
Proof.
  intros H. split; [|split; [|split; [|split]]].
  - unfold consultarCNPJ.
    destruct (negb _); [exact H|].
    destruct (get _) as [dados|err].
    + destruct (cnaesAutoPopulados (Corpo.atividades dados)) as [cnaes|] eqn:E.
      * apply (cnaesAutoPopulados_text _ _ E).
      * destruct (tratarErro_state (valorDoErro textoTypeError e)
                    (setDadosReceita (Some dados)
                       (setLoading true (setError (JStr "") st)))
                    [API_URL ++ "/api/empresas/consulta/" ++ limparCNPJ (cnpj st)] [])
          as (_ & _ & Hf & _).
        rewrite Hf. exact H.
    + destruct (tratarErro_state err (setLoading true (setError (JStr "") st))
                  [API_URL ++ "/api/empresas/consulta/" ++ limparCNPJ (cnpj st)] [])
        as (_ & _ & Hf & _).
      rewrite Hf. exact H.
  - cbn [adicionarCNAE formData setFormData comCnaes cnaes_permitidos].
    rewrite forallb_app, H. reflexivity.
  - intros index. cbn [removerCNAE formData setFormData comCnaes cnaes_permitidos].
    now apply forallb_filterIndexed.
  - intros index campo valor st'. unfold atualizarCNAE.
    destruct (atribuirEm index campo valor _) as [l'|] eqn:E; [|discriminate].
    intros [= <-]. cbn [formData setFormData comCnaes cnaes_permitidos].
    apply (atribuirEm_text _ _ _ _ _ H E).
  - rewrite <- (map_id (cnaes_permitidos (formData st))) at 2.
    apply map_ext_in. intros c Hc. apply cnaeParaEnviar_text.
    rewrite forallb_forall in H. now apply H.
Qed.

End FormProperties.

Section FormWitnesses.
Import CadastroEmpresa CadastroForm.

Lemma consultarCNPJ_rejects_wrong_length_witness :
  consultas (consultarCNPJ "http://localhost:8001" (fun _ => Recusada JNull) "erro"
               (handleCnpjChange "12.345.678/0001" initialState)) = [].
Proof.
  destruct (consultarCNPJ_rejects_wrong_length "http://localhost:8001"
              (fun _ => Recusada JNull) "erro"
              (handleCnpjChange "12.345.678/0001" initialState))
    as [H _]; [simpl; lia | exact H].
Defined.

Lemma consultarCNPJ_sends_digits_witness :
  consultas (consultarCNPJ "http://localhost:8001" (fun _ => Recusada JNull) "erro"
               (handleCnpjChange "12.345.678/0001-95" initialState))
  = ["http://localhost:8001/api/empresas/consulta/12345678000195"].
Proof.
  apply (consultarCNPJ_sends_digits "http://localhost:8001"
           (fun _ => Recusada JNull) "erro" "12.345.678/0001-95" initialState).
  reflexivity.
Defined.

Lemma consultarCNPJ_success_witness :
  let cnae := JObj [("codigo", JNum 6201500); ("descricao", JStr "Software")] in
  let dados :=
    {| Corpo.cnpj := JStr "12345678000195";
       Corpo.razao_social := JStr "ACME LTDA";
       Corpo.nome_fantasia := JNull;
       Corpo.atividades := {| Receita.cnae_principal := cnae;
                              Receita.cnaes_secundarios := Some [cnae; cnae] |} |} in
  let out := consultarCNPJ "" (fun _ => Respondida dados) "erro"
               (handleCnpjChange "12345678000195" initialState) in
  step (state out) = 2%nat
  /\ List.length (cnaes_permitidos (formData (state out))) = 3%nat.
Proof.
  intros cnae dados out.
  destruct (consultarCNPJ_success "" (fun _ => Respondida dados) "erro"
              (handleCnpjChange "12345678000195" initialState) dados)
    as (H1 & _ & H3 & _);
    [reflexivity | reflexivity | reflexivity | reflexivity |].
  split; [exact H1 | unfold out; rewrite H3; reflexivity].
Defined.

Lemma consultarCNPJ_failure_witness :
  let err := JObj [("response",
                    JObj [("data", JObj [("detail", JStr "CNPJ não encontrado")])])] in
  let out := consultarCNPJ "" (fun _ => Recusada err) "erro"
               (handleCnpjChange "12345678000195" initialState) in
  step (state out) = 1%nat
  /\ error (state out) = JStr "CNPJ não encontrado".
Proof.
  intros err out.
  destruct (consultarCNPJ_failure "" (fun _ => Recusada err) "erro"
              (handleCnpjChange "12345678000195" initialState) err)
    as (H1 & _ & _ & _ & H5); [reflexivity | reflexivity |].
  split; [exact H1 | apply H5].
Defined.

Lemma removerCNAE_removes_one_witness :
  let st := adicionarCNAE (adicionarCNAE initialState) in
  List.length (cnaes_permitidos (formData (removerCNAE 0 st))) = 1%nat.
Proof.
  intros st.
  destruct (removerCNAE_removes_one 0 st) as (_ & H & _).
  specialize (H ltac:(simpl; lia)). simpl in H |- *. lia.
Defined.

Lemma form_entries_stay_text_witness :
  map cnaeParaEnviar (cnaes_permitidos (formData (adicionarCNAE initialState)))
  = cnaes_permitidos (formData (adicionarCNAE initialState)).
Proof.
  destruct (form_entries_stay_text "" (fun _ => Recusada JNull) "erro"
              (adicionarCNAE initialState))
    as (_ & _ & _ & _ & H); [reflexivity | exact H].
Defined.

End FormWitnesses.

(** ** Which company the dashboard selects *)

Section DashboardProperties.
Import CadastroEmpresa Dashboard.

Lemma findM_idIgual_objects (s : string) (data : list JsVal) :
  forallb ehObjeto data = true ->
  findM (idIgual s) data
  = Normal (match find (fun e => match getOpt e "id" with
                                 | JStr s' => (s' =? s)
                                 | _ => false
                                 end) data with
            | Some e => e
            | None => JUndefined
            end).
Proof.
  induction data as [|e data IH]; simpl; [reflexivity|].
  intros H. apply andb_true_iff in H as [He Hd].
  destruct e as [| | | | | |o]; try discriminate.
  unfold idIgual at 1. cbn [get getOpt bind].
  destruct (match lookup "id" o with Some x => x | None => JUndefined end)
    as [| | | |s'| |]; try (now apply IH).
  destruct (s' =? s); [reflexivity | now apply IH].
Qed.

Lemma carregarEmpresas_saved (s : string) (data : list JsVal) (st : State) :
  s <> "" ->
  empresaSelecionadaId st = Some s ->
  data <> [] ->
  forallb ehObjeto data = true ->
  carregarEmpresas (Recebida data) st
  = setLoading false
      (setEmpresaSelecionada
         (match find (fun e => match getOpt e "id" with
                               | JStr s' => (s' =? s)
                               | _ => false
                               end) data with
          | Some e => e
          | None => nth 0 data JUndefined
          end)
         (setEmpresas data st)).
Proof.
  intros Hs Hsaved Hne Hobj. unfold carregarEmpresas. rewrite Hsaved.
  destruct (s =? "") eqn:E; [apply String.eqb_eq in E; contradiction|].
  destruct data as [|e0 data0] eqn:Ed; [contradiction|]. rewrite <- Ed in *.
  assert (Hlen : (0 <? List.length data)%nat = true) by (rewrite Ed; reflexivity).
  rewrite Hlen. cbn [negb andb].
  rewrite (findM_idIgual_objects s data Hobj).
  destruct (find _ data) as [e|] eqn:Ef; [|reflexivity].
  apply find_some in Ef as [Hin _].
  rewrite forallb_forall in Hobj. specialize (Hobj e Hin).
  destruct e; try discriminate. reflexivity.
Qed.

(** With an id saved in [localStorage] and a non-empty list of companies,
    loading selects the first company carrying that id, and the first of
    the list when none does; the selected company is always one of the
    list. *)
Theorem carregarEmpresas_restores_saved
  (s : string) (data : list JsVal) (st : State) :
  s <> "" ->
  empresaSelecionadaId st = Some s ->
  data <> [] ->
  forallb ehObjeto data = true ->
  let st' := carregarEmpresas (Recebida data) st in
  empresas st' = data
  /\ loading st' = false
  /\ In (empresaSelecionada st') data
  /\ match find (fun e => match getOpt e "id" with
                          | JStr s' => (s' =? s)
                          | _ => false
                          end) data with
     | Some e => empresaSelecionada st' = e
     | None => empresaSelecionada st' = nth 0 data JUndefined
     end.
Proof.
  intros Hs Hsaved Hne Hobj st'. unfold st'.
  rewrite (carregarEmpresas_saved s data st Hs Hsaved Hne Hobj).
  cbn [empresas loading empresaSelecionada setLoading setEmpresaSelecionada setEmpresas].
  split; [reflexivity|]. split; [reflexivity|].
  destruct (find _ data) as [e|] eqn:Ef.
  - split; [|reflexivity]. now apply find_some in Ef as [Hin _].
  - split; [|reflexivity]. destruct data; [contradiction | now left].
Qed.

Lemma carregarEmpresas_restores_saved_witness :
  let a := JObj [("id", JStr "a1"); ("razao_social", JStr "Alfa")] in
  let b := JObj [("id", JStr "b2"); ("razao_social", JStr "Beta")] in
  empresaSelecionada (carregarEmpresas (Recebida [a; b]) (initialState (Some "b2"))) = b.
Proof.
  intros a b.
  destruct (carregarEmpresas_restores_saved "b2" [a; b] (initialState (Some "b2")))
    as (_ & _ & _ & H);
    [discriminate | reflexivity | discriminate | reflexivity | exact H].
Defined.

(** Selecting a company and loading the list again, the selection comes
    back to a company with the same id, provided the id is a non-empty text
    and the company is still listed. *)
Theorem selecionar_then_carregar
  (empresa : JsVal) (s : string) (data : list JsVal) (st : State) :
  getOpt empresa "id" = JStr s ->
  s <> "" ->
  In empresa data ->
  forallb ehObjeto data = true ->
  getOpt (empresaSelecionada
            (carregarEmpresas (Recebida data) (handleSelecionarEmpresa empresa st)))
         "id" = JStr s.
Proof.
  intros Hid Hs Hin Hobj.
  assert (Hobj' := Hobj). rewrite forallb_forall in Hobj'.
  pose proof (Hobj' empresa Hin) as He.
  destruct empresa as [| | | | | |o]; try discriminate.
  assert (Hsaved : empresaSelecionadaId (handleSelecionarEmpresa (JObj o) st) = Some s).
  { unfold handleSelecionarEmpresa. cbn [get]. cbn [getOpt] in Hid. rewrite Hid.
    reflexivity. }
  rewrite (carregarEmpresas_saved s data _ Hs Hsaved) by
    (try assumption; intros ->; contradiction).
  cbn [empresaSelecionada setLoading setEmpresaSelecionada].
  destruct (find _ data) as [e|] eqn:Ef.
  - apply find_some in Ef as [_ Hp].
    destruct (getOpt e "id") as [| | | |s'| |]; try discriminate.
    apply String.eqb_eq in Hp. now subst.
  - exfalso. apply (find_none _ _ Ef) in Hin. cbn beta in Hin.
    rewrite Hid, String.eqb_refl in Hin. discriminate.
Qed.

Lemma selecionar_then_carregar_witness :
  let a := JObj [("id", JStr "a1"); ("razao_social", JStr "Alfa")] in
  let b := JObj [("id", JStr "b2"); ("razao_social", JStr "Beta")] in
  getOpt (empresaSelecionada
            (carregarEmpresas (Recebida [a; b])
               (handleSelecionarEmpresa b (initialState None))))
         "id" = JStr "b2".
Proof.
  intros a b.
  apply (selecionar_then_carregar b "b2" [a; b] (initialState None));
    [reflexivity | discriminate | right; left; reflexivity | reflexivity].
Defined.

(** Without a saved id: the first company of a non-empty list is selected
    when none is, a company already selected is kept whatever the list
    holds, and a failed or empty load never touches the selection. *)
Theorem carregarEmpresas_without_saved
  (data : list JsVal) (st : State) :
  empresaSelecionadaId st = None ->
  (truthy (empresaSelecionada st) = false -> data <> [] ->
     empresaSelecionada (carregarEmpresas (Recebida data) st) = nth 0 data JUndefined)
  /\ (truthy (empresaSelecionada st) = true ->
        empresaSelecionada (carregarEmpresas (Recebida data) st) = empresaSelecionada st)
  /\ empresaSelecionada (carregarEmpresas (Recebida []) st) = empresaSelecionada st
  /\ empresaSelecionada (carregarEmpresas Falhou st) = empresaSelecionada st
  /\ loading (carregarEmpresas (Recebida data) st) = false
  /\ loading (carregarEmpresas Falhou st) = false.
Proof.
  intros Hsaved. unfold carregarEmpresas. rewrite Hsaved. cbn [andb].
  repeat split.
  - intros Ht Hne. rewrite Ht. destruct data; [contradiction | reflexivity].
  - intros Ht. rewrite Ht. now destruct (0 <? List.length data)%nat.
  - destruct (_ && _); reflexivity.
Qed.

Lemma carregarEmpresas_without_saved_witness :
  let a := JObj [("id", JStr "a1")] in
  let b := JObj [("id", JStr "b2")] in
  empresaSelecionada (carregarEmpresas (Recebida [a; b]) (initialState None)) = a.
Proof.
  intros a b.
  destruct (carregarEmpresas_without_saved [a; b] (initialState None)) as [H _];
    [reflexivity|].
  apply H; [reflexivity | discriminate].
Defined.

End DashboardProperties.
